(** * file_service: the S3 listing, aggregation, deletion and link-cache core

    A shallow embedding of [pkg/s3] of KailasMahavarkar/file_service
    ([ListFiles], [ListAllFiles], [GenerateDownloadLink], [DeleteObject],
    [DeleteFolder], [ListAllFolders]) and the properties of the specification
    that concern them.

    The AWS SDK client [s.svc] is an interface of the development: a record of
    three operations over an abstract bucket state.  Every call the code makes
    on it is appended to a log kept in the program state, together with the
    error it came back with, so that statements about "which backend calls
    were issued, and in which order" are statements about that log.

    Go values are modelled as follows: [string] as [string], [int64]/[int]
    and [int32] as [Z] with the wrap-around written out, [time.Time] and
    [time.Duration] as [Z] nanoseconds, a [*string] as [option string],
    slices as lists, the pair [(v, err)] a Go function returns as an
    [Outcome], and a [*cache.URLCache] as an address into a heap of caches.
    [time.Now()] reads the clock of the state; the clock does not move during
    a call, and a later instant is the same state at another time.  The loops
    whose exit depends on the backend take fuel, and running out of it is an
    outcome of its own. *)

From Stdlib Require Import ZArith Ascii String List Lia DecimalString.
From stdpp Require Import base strings gmap list.

Local Open Scope string_scope.
Local Open Scope list_scope.

(** ** Machine integers *)

Definition wrap32 (z : Z) : Z := ((z + 2 ^ 31) mod 2 ^ 32 - 2 ^ 31)%Z.
Definition wrap64 (z : Z) : Z := ((z + 2 ^ 63) mod 2 ^ 64 - 2 ^ 63)%Z.

(** ** Package [time] *)

Module time.
Definition Second : Z := 1000000000.
Definition Minute : Z := 60 * Second.
Definition Add (t d : Z) : Z := (t + d)%Z.
(** [t.Truncate(d)]: [t] rounded down to a multiple of [d]; [t] itself
    when [d <= 0]. *)
Definition Truncate (t d : Z) : Z :=
  if (d <=? 0)%Z then t else (t - t mod d)%Z.
End time.

(** ** Package [strings] *)

Module strings.
Definition HasSuffix (s suffix : string) : bool :=
  (String.length suffix <=? String.length s)%nat
  && String.eqb
       (substring (String.length s - String.length suffix)
                  (String.length suffix) s)
       suffix.
End strings.

(** ** The SDK's request and response types *)

Definition error := string.

Module s3.
Record Object := {
  Key : string;
  Size : Z;
  LastModified : Z
}.

Record ListObjectsV2Input := {
  Prefix : string;
  Delimiter : option string;
  MaxKeys : Z;
  ContinuationToken : option string
}.

Record ListObjectsV2Output := {
  Contents : list Object;
  CommonPrefixes : list string;
  NextContinuationToken : option string;
  IsTruncated : bool
}.
End s3.

(** The object store as the code sees it.  [ListObjectsV2] returns its output
    value together with the error, as the SDK does (the code reads the output
    before it looks at the error); [Presign] signs for a key, a validity and
    the instant of signing. *)
Record S3API (B : Type) := {
  svc_ListObjectsV2 :
    B -> s3.ListObjectsV2Input -> (s3.ListObjectsV2Output * option error) * B;
  svc_DeleteObject : B -> string -> option error * B;
  svc_Presign : B -> string -> Z -> Z -> string * option error
}.
Arguments svc_ListObjectsV2 {B}.
Arguments svc_DeleteObject {B}.
Arguments svc_Presign {B}.

(** One entry of the log of backend calls: the request and its error. *)
Inductive Call :=
| CallListObjectsV2 (input : s3.ListObjectsV2Input) (err : option error)
| CallDeleteObject (key : string) (err : option error)
| CallPresign (key : string) (ttl : Z) (err : option error).

Definition call_error (c : Call) : option error :=
  match c with
  | CallListObjectsV2 _ e | CallDeleteObject _ e | CallPresign _ _ e => e
  end.

Definition is_list (c : Call) : bool :=
  match c with CallListObjectsV2 _ _ => true | _ => false end.
Definition is_delete (c : Call) : bool :=
  match c with CallDeleteObject _ _ => true | _ => false end.
Definition is_presign (c : Call) : bool :=
  match c with CallPresign _ _ _ => true | _ => false end.

(** ** The records of package [s3] of the repository *)

Record ObjectDetails := {
  Name : string;
  IsFolder : bool;
  Size : Z;
  LastModified : Z;
  DownloadLink : string
}.

Record ListFilesResponse := {
  Files : list ObjectDetails;
  NextPageToken : string;
  IsLastPage : bool;
  NoOfRecordsReturned : Z;
  FilesCount : Z;
  FoldersCount : Z
}.

Definition withDownloadLink (u : string) (o : ObjectDetails) : ObjectDetails :=
  {| Name := Name o; IsFolder := IsFolder o; Size := Size o;
     LastModified := LastModified o; DownloadLink := u |}.

(** The record the code builds from a backend content entry, with the link
    still empty. *)
Definition detailsOf (obj : s3.Object) : ObjectDetails :=
  {| Name := s3.Key obj;
     IsFolder := (s3.Size obj =? 0)%Z;
     Size := s3.Size obj;
     LastModified := s3.LastModified obj;
     DownloadLink := "" |}.

(** ** Package [cache] *)

Record CacheEntry := { url : string; expiresAt : Z }.

Module cache.
(** Modelled from the spec: [pkg/cache] ([URLCache], [Get], [Set]) is not
    among the sources.  Section 3 and 4.5 of the specification: a
    CacheEntry is [(url, expires_at)], "an entry is valid for reads iff
    [now < expires_at]", and expired or absent entries are a miss. *)
Definition Get (now : Z) (c : gmap string CacheEntry) (key : string)
  : string * bool :=
  match c !! key with
  | Some e => if (now <? expiresAt e)%Z then (url e, true) else ("", false)
  | None => ("", false)
  end.

(** Modelled from the spec: [Set] stores [(url, expires_at)] under the key,
    replacing what was there. *)
Definition Set' (c : gmap string CacheEntry) (key u : string) (expiry : Z)
  : gmap string CacheEntry :=
  <[key := {| url := u; expiresAt := expiry |}]> c.
End cache.

(** ** Program state and the monad of the embedding *)

Inductive Outcome (A : Type) :=
| Ok (a : A)            (* the function returned [(a, nil)] *)
| Err (e : error)       (* the function returned a non-nil error *)
| Panic                 (* nil pointer dereference *)
| OutOfFuel.            (* the loop was still running when the fuel ran out *)
Arguments Ok {A}.
Arguments Err {A}.
Arguments Panic {A}.
Arguments OutOfFuel {A}.

Section Service.
Context {B : Type}.

Record State := {
  bucket : B;                              (* the object store *)
  clock : Z;                               (* what [time.Now()] reads *)
  heap : list (gmap string CacheEntry);    (* the allocated URLCaches *)
  calls : list Call                        (* backend calls, oldest first *)
}.

(** The state after a backend call that left the bucket as [b]. *)
Definition logged (call : Call) (b : B) (st : State) : State :=
  {| bucket := b; clock := clock st; heap := heap st;
     calls := calls st ++ [call] |}.

Definition withHeap (h : list (gmap string CacheEntry)) (st : State) : State :=
  {| bucket := bucket st; clock := clock st; heap := h; calls := calls st |}.

(** The same state at a later reading of the clock. *)
Definition at_time (t : Z) (st : State) : State :=
  {| bucket := bucket st; clock := t; heap := heap st; calls := calls st |}.

Definition M (A : Type) : Type := State -> Outcome A * State.

Definition ret {A} (a : A) : M A := fun st => (Ok a, st).
Definition fail {A} (e : error) : M A := fun st => (Err e, st).
Definition panic {A} : M A := fun st => (Panic, st).
Definition outOfFuel {A} : M A := fun st => (OutOfFuel, st).

Definition bind {A C} (m : M A) (k : A -> M C) : M C :=
  fun st =>
    match m st with
    | (Ok a, st') => k a st'
    | (Err e, st') => (Err e, st')
    | (Panic, st') => (Panic, st')
    | (OutOfFuel, st') => (OutOfFuel, st')
    end.

(** [v, err := f(...)]: the caller gets both components and goes on. *)
Definition try {A} (m : M A) : M (option A * option error) :=
  fun st =>
    match m st with
    | (Ok a, st') => (Ok (Some a, None), st')
    | (Err e, st') => (Ok (None, Some e), st')
    | (Panic, st') => (Panic, st')
    | (OutOfFuel, st') => (OutOfFuel, st')
    end.
End Service.
Arguments State : clear implicits.
Arguments M : clear implicits.

Declare Scope go_scope.
Delimit Scope go_scope with go.
Notation "x <- c1 ;; c2" := (bind c1 (fun x => c2))
  (at level 100, c1 at next level, right associativity) : go_scope.
Notation "c1 ;;; c2" := (bind c1 (fun _ => c2))
  (at level 100, right associativity) : go_scope.
Local Open Scope go_scope.

(** ** [GenerateDownloadLink] and [ListFiles] *)

Section Listing.
Context {B : Type} (svc : S3API B).

Definition Now : M B Z := fun st => (Ok (clock st), st).

Definition ListObjectsV2 (input : s3.ListObjectsV2Input)
  : M B (s3.ListObjectsV2Output * option error) :=
  fun st =>
    let '(resp, err, b) := svc_ListObjectsV2 svc (bucket st) input in
    (Ok (resp, err), logged (CallListObjectsV2 input err) b st).

Definition Presign (key : string) (expire : Z) : M B (string * option error) :=
  fun st =>
    let '(u, err) := svc_Presign svc (bucket st) key expire (clock st) in
    (Ok (u, err), logged (CallPresign key expire err) (bucket st) st).

(** [cache.Get(key)] through the pointer [c]. *)
Definition cacheGet (c : nat) (key : string) : M B (string * bool) :=
  fun st =>
    match heap st !! c with
    | Some m => (Ok (cache.Get (clock st) m key), st)
    | None => (Panic, st)
    end.

(** [cache.Set(key, url, expiry)] through the pointer [c]. *)
Definition cacheSet (c : nat) (key u : string) (expiry : Z) : M B unit :=
  fun st =>
    match heap st !! c with
    | Some m =>
        (Ok tt, withHeap (<[c := cache.Set' m key u expiry]> (heap st)) st)
    | None => (Panic, st)
    end.

(** [&cache.URLCache{}] *)
Definition newURLCache : M B nat :=
  fun st =>
    (Ok (List.length (heap st)), withHeap (heap st ++ [∅]) st).

Definition GenerateDownloadLink (objectKey : string) (c : nat) : M B string :=
  r <- cacheGet c objectKey ;;
  let '(u, found) := r in
  if found then ret u
  else
    let expiryTime := (15 * time.Minute)%Z in
    p <- Presign objectKey expiryTime ;;
    let '(downloadURL, err) := p in
    match err with
    | Some e => fail e
    | None =>
        now <- Now ;;
        cacheSet c objectKey downloadURL (time.Add now expiryTime) ;;;
        ret downloadURL
    end.

Definition normalizeFolderPath (folderPath : string) : string :=
  if negb (String.eqb folderPath "") && negb (strings.HasSuffix folderPath "/")
  then String.append folderPath "/" else folderPath.

Definition folderRecord (now : Z) (p : string) : ObjectDetails :=
  {| Name := p; IsFolder := true; Size := 0;
     LastModified := time.Truncate now time.Second;
     DownloadLink := "" |}.

(** The first loop of [ListFiles]: one folder record per common prefix. *)
Fixpoint appendCommonPrefixes (prefixes : list string)
    (objects : list ObjectDetails) : M B (list ObjectDetails) :=
  match prefixes with
  | [] => ret objects
  | p :: rest =>
      now <- Now ;;
      appendCommonPrefixes rest (objects ++ [folderRecord now p])
  end.

(** The second loop of [ListFiles], over [resp.Contents]. *)
Fixpoint appendContents (folderPath : string) (c : nat)
    (contents : list s3.Object) (fileCount : Z)
    (objects : list ObjectDetails) : M B (Z * list ObjectDetails) :=
  match contents with
  | [] => ret (fileCount, objects)
  | obj :: rest =>
      if String.eqb (s3.Key obj) folderPath
      then appendContents folderPath c rest fileCount objects
      else
        let fileCount := wrap32 (fileCount + 1) in
        let objects := objects ++ [detailsOf obj] in
        downloadURL <- GenerateDownloadLink (s3.Key obj) c ;;
        let objects :=
          alter (withDownloadLink downloadURL) (List.length objects - 1) objects in
        appendContents folderPath c rest fileCount objects
  end.

Definition listFilesInput (folderPath nextPageToken : string) (pageSize : Z)
  : s3.ListObjectsV2Input :=
  {| s3.Prefix := folderPath;
     s3.Delimiter := Some "/";
     s3.MaxKeys := wrap64 (pageSize + 1);
     s3.ContinuationToken :=
       if String.eqb nextPageToken "" then None else Some nextPageToken |}.

Definition ListFiles (folderPath nextPageToken : string) (pageSize : Z)
    (isFolder : bool) (c : nat) : M B ListFilesResponse :=
  let folderPath := normalizeFolderPath folderPath in
  let input := listFilesInput folderPath nextPageToken pageSize in
  r <- ListObjectsV2 input ;;
  let '(resp, err) := r in
  objects <- appendCommonPrefixes (s3.CommonPrefixes resp) [] ;;
  match err with
  | Some e => fail e
  | None =>
      fo <- (if negb isFolder
             then appendContents folderPath c (s3.Contents resp) 0 objects
             else ret (0%Z, objects)) ;;
      let '(fileCount, objects) := fo in
      let nextToken :=
        match s3.NextContinuationToken resp with
        | Some t => t
        | None => ""
        end in
      ret {| Files := objects;
             NextPageToken := nextToken;
             IsLastPage := negb (s3.IsTruncated resp);
             NoOfRecordsReturned := wrap32 (Z.of_nat (List.length objects));
             FilesCount := fileCount;
             FoldersCount :=
               wrap32 (Z.of_nat (List.length (s3.CommonPrefixes resp))) |}
  end.
End Listing.

(** ** [ListAllFiles] *)

Section Aggregation.
Context {B : Type} (svc : S3API B).

(** [for nextToken != "" { temp, _ := s.ListFiles(path, nextToken, ...) ... }]:
    the error of [ListFiles] is dropped and [*temp.Files] is read. *)
Fixpoint drainPages (fuel : nat) (path nextToken : string)
    (allObjects : list ObjectDetails) : M B (list ObjectDetails) :=
  if String.eqb nextToken "" then ret allObjects
  else
    match fuel with
    | O => outOfFuel
    | S fuel =>
        c <- newURLCache ;;
        r <- try (ListFiles svc path nextToken 10 false c) ;;
        match fst r with
        | None => panic
        | Some temp =>
            let allObjects := allObjects ++ Files temp in
            let nextToken := if IsLastPage temp then "" else nextToken in
            let nextToken := NextPageToken temp in
            drainPages fuel path nextToken allObjects
        end
    end.

(** [for _, folder := range *objects.Files { if folder.IsFolder { ... } }] *)
Fixpoint forEachFolder
    (visit : string -> list ObjectDetails -> M B (list ObjectDetails))
    (files : list ObjectDetails) (allObjects : list ObjectDetails)
  : M B (list ObjectDetails) :=
  match files with
  | [] => ret allObjects
  | f :: rest =>
      if IsFolder f
      then allObjects <- visit (Name f) allObjects ;;
           forEachFolder visit rest allObjects
      else forEachFolder visit rest allObjects
  end.

(** The closure [listObjectsRecursively]; the captured slice [allObjects]
    is passed in and handed back. *)
Fixpoint listObjectsRecursively (fuel : nat) (path : string)
    (allObjects : list ObjectDetails) : M B (list ObjectDetails) :=
  match fuel with
  | O => outOfFuel
  | S fuel =>
      c <- newURLCache ;;
      r <- try (ListFiles svc path "" 10 false c) ;;
      let '(objects, err) := r in
      match objects with
      | None => panic
      | Some objects =>
          let nextToken := NextPageToken objects in
          allObjects <- drainPages fuel path nextToken allObjects ;;
          match err with
          | Some e => fail e
          | None =>
              let allObjects := allObjects ++ Files objects in
              forEachFolder (listObjectsRecursively fuel)
                (Files objects) allObjects
          end
      end
  end.

Definition ListAllFiles (fuel : nat) (folderPath : string)
  : M B ListFilesResponse :=
  c <- newURLCache ;;
  r <- try (ListFiles svc folderPath "" 10 false c) ;;
  let '(objects, err) := r in
  match objects with
  | None => panic
  | Some objects =>
      let nextToken := NextPageToken objects in
      match err with
      | Some e => fail e
      | None =>
          allObjects <- drainPages fuel folderPath nextToken [] ;;
          allObjects <- forEachFolder (listObjectsRecursively fuel)
                          (Files objects) allObjects ;;
          let allObjects := Files objects ++ allObjects in
          ret {| Files := allObjects;
                 NextPageToken := NextPageToken objects;
                 IsLastPage := IsLastPage objects;
                 NoOfRecordsReturned :=
                   wrap32 (Z.of_nat (List.length allObjects));
                 FilesCount := FilesCount objects;
                 FoldersCount := FoldersCount objects |}
      end
  end.
End Aggregation.

(** ** [DeleteObject], [DeleteFolder] and [ListAllFolders] *)

Section Deletion.
Context {B : Type} (svc : S3API B).

Definition svcDeleteObject (key : string) : M B (option error) :=
  fun st =>
    let '(err, b) := svc_DeleteObject svc (bucket st) key in
    (Ok err, logged (CallDeleteObject key err) b st).

Definition DeleteObject (objectKey : string) : M B unit :=
  err <- svcDeleteObject objectKey ;;
  match err with
  | Some e => fail e
  | None => ret tt
  end.

(** The loop over the first response: every entry but the folder itself. *)
Fixpoint collectFirst (folderPath : string) (contents : list s3.Object)
    (allObjects : list ObjectDetails) : list ObjectDetails :=
  match contents with
  | [] => allObjects
  | obj :: rest =>
      if String.eqb (s3.Key obj) folderPath
      then collectFirst folderPath rest allObjects
      else collectFirst folderPath rest (allObjects ++ [detailsOf obj])
  end.

(** The loop over [curr.Contents] inside the pagination loop.  The token is
    taken over from [curr] in the body of this loop, after the [continue]
    of the folder's own entry, and the loop is left as soon as it is nil. *)
Fixpoint collectPage (folderPath : string) (next : option string)
    (contents : list s3.Object) (allObjects : list ObjectDetails)
    (nextToken : option string) : list ObjectDetails * option string :=
  match contents with
  | [] => (allObjects, nextToken)
  | obj :: rest =>
      if String.eqb (s3.Key obj) folderPath
      then collectPage folderPath next rest allObjects nextToken
      else
        let allObjects := allObjects ++ [detailsOf obj] in
        let nextToken := next in
        match nextToken with
        | None => (allObjects, nextToken)
        | Some _ => collectPage folderPath next rest allObjects nextToken
        end
  end.

Definition flatInput (folderPath : string) (maxKeys : Z)
    (token : option string) : s3.ListObjectsV2Input :=
  {| s3.Prefix := folderPath; s3.Delimiter := None;
     s3.MaxKeys := maxKeys; s3.ContinuationToken := token |}.

(** [for nextToken != nil { ... }] of [DeleteFolder] *)
Fixpoint deleteFolderPages (fuel : nat) (folderPath : string)
    (allObjects : list ObjectDetails) (nextToken : option string)
  : M B (list ObjectDetails) :=
  match nextToken with
  | None => ret allObjects
  | Some _ =>
      match fuel with
      | O => outOfFuel
      | S fuel =>
          r <- ListObjectsV2 svc (flatInput folderPath 1000 nextToken) ;;
          let '(curr, err) := r in
          match err with
          | Some e => fail e
          | None =>
              let '(allObjects, nextToken) :=
                collectPage folderPath (s3.NextContinuationToken curr)
                  (s3.Contents curr) allObjects nextToken in
              deleteFolderPages fuel folderPath allObjects nextToken
          end
      end
  end.

(** [for _, obj := range allObjects { err := s.DeleteObject(obj.Name) ... }] *)
Fixpoint deleteObjects (allObjects : list ObjectDetails) : M B unit :=
  match allObjects with
  | [] => ret tt
  | obj :: rest => DeleteObject (Name obj) ;;; deleteObjects rest
  end.

(** The listing half of [DeleteFolder], up to the end of the pagination
    loop, on the normalized path. *)
Definition collectFolder (fuel : nat) (folderPath : string)
  : M B (list ObjectDetails) :=
  r <- ListObjectsV2 svc (flatInput folderPath 2 None) ;;
  let '(resp, err) := r in
  let allObjects := collectFirst folderPath (s3.Contents resp) [] in
  match err with
  | Some e => fail e
  | None =>
      let nextToken := s3.NextContinuationToken resp in
      deleteFolderPages fuel folderPath allObjects nextToken
  end.

Definition DeleteFolder (fuel : nat) (folderPath : string) : M B unit :=
  let folderPath := normalizeFolderPath folderPath in
  allObjects <- collectFolder fuel folderPath ;;
  deleteObjects allObjects ;;;
  DeleteObject folderPath.

(** As [collectFirst], keeping the zero-size entries only. *)
Fixpoint foldersFirst (folderPath : string) (contents : list s3.Object)
    (allObjects : list ObjectDetails) : list ObjectDetails :=
  match contents with
  | [] => allObjects
  | obj :: rest =>
      if String.eqb (s3.Key obj) folderPath
      then foldersFirst folderPath rest allObjects
      else if (s3.Size obj =? 0)%Z
      then foldersFirst folderPath rest (allObjects ++ [detailsOf obj])
      else foldersFirst folderPath rest allObjects
  end.

Fixpoint foldersPage (folderPath : string) (next : option string)
    (contents : list s3.Object) (allObjects : list ObjectDetails)
    (nextToken : option string) : list ObjectDetails * option string :=
  match contents with
  | [] => (allObjects, nextToken)
  | obj :: rest =>
      if String.eqb (s3.Key obj) folderPath
      then foldersPage folderPath next rest allObjects nextToken
      else
        let allObjects :=
          if (s3.Size obj =? 0)%Z then allObjects ++ [detailsOf obj]
          else allObjects in
        let nextToken := next in
        match nextToken with
        | None => (allObjects, nextToken)
        | Some _ => foldersPage folderPath next rest allObjects nextToken
        end
  end.

(** [for nextToken != nil { curr, _ := ... }] of [ListAllFolders]: the
    error of the listing call is dropped. *)
Fixpoint listAllFoldersPages (fuel : nat) (folderPath : string)
    (allObjects : list ObjectDetails) (nextToken : option string)
  : M B (list ObjectDetails) :=
  match nextToken with
  | None => ret allObjects
  | Some _ =>
      match fuel with
      | O => outOfFuel
      | S fuel =>
          r <- ListObjectsV2 svc (flatInput folderPath 1000 nextToken) ;;
          let curr := fst r in
          let '(allObjects, nextToken) :=
            foldersPage folderPath (s3.NextContinuationToken curr)
              (s3.Contents curr) allObjects nextToken in
          listAllFoldersPages fuel folderPath allObjects nextToken
      end
  end.

(** [ListAllFolders] has one result, the slice: a computation of this type
    that ends in [Ok l] returned [l], and there is no error to return. *)
Definition ListAllFolders (fuel : nat) (folderPath : string)
  : M B (list ObjectDetails) :=
  let folderPath := normalizeFolderPath folderPath in
  r <- ListObjectsV2 svc (flatInput folderPath 1000 None) ;;
  let '(resp, err) := r in
  let allObjects := foldersFirst folderPath (s3.Contents resp) [] in
  match err with
  | Some _ => ret allObjects
  | None =>
      let nextToken := s3.NextContinuationToken resp in
      listAllFoldersPages fuel folderPath allObjects nextToken
  end.
End Deletion.

(** ** A reference object store

    The object store is outside the repository.  To run the functions above
    on buckets, this module gives a small store with the listing contract of
    the specification (section 4.1 and the glossary): a flat space of keys in
    lexicographic order, listed by prefix, grouped into common prefixes
    where the delimiter first occurs after the prefix, at most [MaxKeys]
    (and never more than 1000) entries a page, resumed by an opaque token. *)

Module Store.
Record t := {
  objects : list s3.Object;   (* in key order *)
  locked : list string;       (* keys whose deletion is refused *)
  down : bool                 (* listing fails with a request error *)
}.

Inductive entry := EObject (o : s3.Object) | EPrefix (p : string).

(** Tokens: ["k:"] or ["p:"] followed by the last key, or the last common
    prefix, of the page before. *)
Definition after (token : option string) (key : string) : bool :=
  match token with
  | None => true
  | Some t =>
      let last := substring 2 (String.length t - 2) t in
      if String.eqb (substring 0 2 t) "p:"
      then String.ltb last key && negb (String.prefix last key)
      else String.ltb last key
  end.

Definition classify (prefix : string) (delimiter : option string)
    (o : s3.Object) : entry :=
  match delimiter with
  | None => EObject o
  | Some d =>
      let rest :=
        substring (String.length prefix)
          (String.length (s3.Key o) - String.length prefix) (s3.Key o) in
      match String.index 0 d rest with
      | Some i =>
          EPrefix
            (String.append prefix (substring 0 (i + String.length d) rest))
      | None => EObject o
      end
  end.

Fixpoint group (last : option string) (es : list entry) : list entry :=
  match es with
  | [] => []
  | EObject o :: rest => EObject o :: group last rest
  | EPrefix p :: rest =>
      if bool_decide (last = Some p) then group last rest
      else EPrefix p :: group (Some p) rest
  end.

Definition entries (b : t) (input : s3.ListObjectsV2Input)
  : list entry :=
  group None
    (map (classify (s3.Prefix input) (s3.Delimiter input))
       (List.filter
          (fun o => String.prefix (s3.Prefix input) (s3.Key o)
                    && after (s3.ContinuationToken input) (s3.Key o))
          (objects b))).

Definition tokenOf (e : entry) : string :=
  match e with
  | EObject o => String.append "k:" (s3.Key o)
  | EPrefix p => String.append "p:" p
  end.

Definition emptyOutput : s3.ListObjectsV2Output :=
  {| s3.Contents := []; s3.CommonPrefixes := [];
     s3.NextContinuationToken := None; s3.IsTruncated := false |}.

Definition listObjectsV2 (b : t) (input : s3.ListObjectsV2Input)
  : (s3.ListObjectsV2Output * option error) * t :=
  if down b then ((emptyOutput, Some "RequestError"), b)
  else
    let es := entries b input in
    let n := Z.to_nat (Z.min (s3.MaxKeys input) 1000) in
    let page := take n es in
    let truncated := (n <? List.length es)%nat in
    (({| s3.Contents :=
           omap (fun e => match e with EObject o => Some o | _ => None end)
             page;
         s3.CommonPrefixes :=
           omap (fun e => match e with EPrefix p => Some p | _ => None end)
             page;
         s3.NextContinuationToken :=
           if truncated then tokenOf <$> last page else None;
         s3.IsTruncated := truncated |}, None), b).

Definition delete (b : t) (key : string) : option error * t :=
  if bool_decide (key ∈ locked b) then (Some "AccessDenied", b)
  else
    (None,
     {| objects :=
          List.filter (fun o => negb (String.eqb (s3.Key o) key)) (objects b);
        locked := locked b; down := down b |}).

Definition api (presign : string -> Z -> Z -> string * option error)
  : S3API t :=
  {| svc_ListObjectsV2 := listObjectsV2;
     svc_DeleteObject := delete;
     svc_Presign := fun _ => presign |}.

Definition sign (key : string) (ttl now : Z) : string * option error :=
  (String.append "https://bucket.s3/" key, None).

(** A signature that carries the instant of signing, as presigned URLs do. *)
Definition stamped (key : string) (ttl now : Z) : string * option error :=
  (String.append "https://bucket.s3/"
     (String.append key
        (String.append "?X-Amz-Date="
           (NilZero.string_of_int (Z.to_int now)))), None).

(** The store when another client empties the bucket right after each
    listing it answers. *)
Definition raced : S3API t :=
  {| svc_ListObjectsV2 := fun b input =>
       ((listObjectsV2 b input).1,
        {| objects := []; locked := locked b; down := down b |});
     svc_DeleteObject := delete;
     svc_Presign := fun _ => sign |}.

(** A signer that fails. *)
Definition unsigned (key : string) (ttl now : Z) : string * option error :=
  ("", Some "SerializationError").

Definition file (key : string) (size : Z) : s3.Object :=
  {| s3.Key := key; s3.Size := size; s3.LastModified := 0 |}.

Definition start (objs : list s3.Object) : State t :=
  {| bucket := {| objects := objs; locked := []; down := false |};
     clock := 0; heap := [∅]; calls := [] |}.

Definition keys (st : State t) : list string :=
  map s3.Key (objects (bucket st)).
End Store.

(** ** [CreateFolder] and [UploadFiles] *)

(** The write side of the object store: [PutObject] for a key and a body. *)
Record PutAPI (B : Type) := {
  svc_PutObject : B -> string -> string -> option error * B
}.
Arguments svc_PutObject {B}.

Section Uploads.
Context {B : Type} (obj : PutAPI B).

Definition PutObject (key body : string) : M B (option error) :=
  fun st =>
    let '(err, b) := svc_PutObject obj (bucket st) key body in
    (Ok err,
     {| bucket := b; clock := clock st; heap := heap st; calls := calls st |}).

(** An empty object under the folder path, with its trailing slash. *)
Definition CreateFolder (folderPath : string) : M B unit :=
  let folderPath := normalizeFolderPath folderPath in
  err <- PutObject folderPath "" ;;
  match err with
  | Some e => fail e
  | None => ret tt
  end.

(** [for i, file := range files { ... objectKeys[i] ... }]: the index runs
    over [files]; a key that is not there is an index out of range. *)
Fixpoint uploadFilesFrom (i : nat) (files objectKeys : list string)
  : M B unit :=
  match files with
  | [] => ret tt
  | file :: rest =>
      match objectKeys !! i with
      | None => panic
      | Some key =>
          err <- PutObject key file ;;
          match err with
          | Some e => fail e
          | None => uploadFilesFrom (S i) rest objectKeys
          end
      end
  end.

Definition UploadFiles (files objectKeys : list string) : M B unit :=
  uploadFilesFrom 0 files objectKeys.
End Uploads.

(** ** The handlers of package [routes] *)

(** What a handler hands to [c.JSON]: the status code and the payload, which
    is a success or failure envelope around a message, or the data itself. *)
Inductive Response :=
| SuccessResponse (code : Z) (message : string)
| FailureResponse (code : Z) (e : error)
| FoldersResponse (code : Z) (objects : list ObjectDetails).

Module http.
Definition StatusOK : Z := 200.
Definition StatusBadRequest : Z := 400.
Definition StatusInternalServerError : Z := 500.
End http.

(** [string(s[len(s)-1]) == "/"] *)
Definition lastByteIsSlash (s : string) : bool :=
  match String.get (String.length s - 1) s with
  | Some ch => Ascii.eqb ch "/"%char
  | None => false
  end.

(** The object key [uploadFileHandler] uploads under: the file name, behind
    the folder path and a slash when a folder path is given. *)
Definition uploadObjectKey (folderPath filename : string) : string :=
  let objectKey := filename in
  if negb (String.eqb folderPath "")
  then
    if lastByteIsSlash folderPath
    then String.append folderPath objectKey
    else String.append folderPath (String.append "/" objectKey)
  else objectKey.

Section Handlers.
Context {B : Type} (svc : S3API B) (obj : PutAPI B).

(** [newClient] is the error of [s3.NewClient(config)], if any. *)
Definition createFolderHandler (path : string) (newClient : option error)
  : M B Response :=
  let folderName := path in
  if String.eqb folderName ""
  then ret (FailureResponse http.StatusBadRequest
              "folder path is required and should end with /")
  else
    let folderName :=
      if negb (lastByteIsSlash folderName)
      then String.append folderName "/" else folderName in
    match newClient with
    | Some _ =>
        ret (FailureResponse http.StatusInternalServerError
               "failed to create S3 client")
    | None =>
        r <- try (CreateFolder obj folderName) ;;
        match r.2 with
        | Some _ =>
            ret (FailureResponse http.StatusInternalServerError
                   "failed to create folder")
        | None =>
            ret (SuccessResponse http.StatusOK "Folder created successfully")
        end
    end.

Definition listAllFoldersHandler (fuel : nat) (path : string)
    (newClient : option error) : M B Response :=
  let folderPath := path in
  match newClient with
  | Some e => ret (FailureResponse http.StatusInternalServerError e)
  | None =>
      objects <- ListAllFolders svc fuel folderPath ;;
      ret (FoldersResponse http.StatusOK objects)
  end.

Definition deleteFolderHandler (fuel : nat) (path : string)
    (newClient : option error) : M B Response :=
  let folderPath := path in
  match newClient with
  | Some e => ret (FailureResponse http.StatusInternalServerError e)
  | None =>
      r <- try (DeleteFolder svc fuel folderPath) ;;
      match r.2 with
      | Some e => ret (FailureResponse http.StatusInternalServerError e)
      | None =>
          ret (SuccessResponse http.StatusOK "Folder deleted successfully")
      end
  end.
End Handlers.

(** * Vocabulary of the statements *)

Section Vocabulary.
Context {B : Type} (svc : S3API B).

(** The validity [GenerateDownloadLink] signs and caches for. *)
Definition ttl : Z := (15 * time.Minute)%Z.

(** The content entries [ListFiles] keeps: all but the folder's own key. *)
Definition kept (folderPath : string) (contents : list s3.Object)
  : list s3.Object :=
  List.filter (fun o => negb (String.eqb (s3.Key o) folderPath)) contents.

(** [d] is the record of content entry [o], whatever link it carries. *)
Definition recordOf (o : s3.Object) (d : ObjectDetails) : Prop :=
  withDownloadLink "" d = detailsOf o.

(** [fileCount++] on an [int32]. *)
Definition bump (fileCount : Z) : Z := wrap32 (fileCount + 1).

(** The request [ListFiles] sends, and what the backend answers to it in
    state [st]. *)
Definition pageInput (folderPath nextPageToken : string) (pageSize : Z)
  : s3.ListObjectsV2Input :=
  listFilesInput (normalizeFolderPath folderPath) nextPageToken pageSize.

Definition pageAnswer (folderPath nextPageToken : string) (pageSize : Z)
    (st : State B) : s3.ListObjectsV2Output * option error :=
  (svc_ListObjectsV2 svc (bucket st)
     (pageInput folderPath nextPageToken pageSize)).1.

(** The content entries that become records of the page. *)
Definition pageContents (folderPath : string) (isFolder : bool)
    (resp : s3.ListObjectsV2Output) : list s3.Object :=
  if isFolder then []
  else kept (normalizeFolderPath folderPath) (s3.Contents resp).

(** The four ways a call of [GenerateDownloadLink] can go. *)
Inductive link_run (key : string) (c : nat) (st : State B)
  : Outcome string * State B -> Prop :=
| link_nil :
    heap st !! c = None ->
    link_run key c st (Panic, st)
| link_hit m u :
    heap st !! c = Some m ->
    cache.Get (clock st) m key = (u, true) ->
    link_run key c st (Ok u, st)
| link_failed m u0 u e :
    heap st !! c = Some m ->
    cache.Get (clock st) m key = (u0, false) ->
    svc_Presign svc (bucket st) key ttl (clock st) = (u, Some e) ->
    link_run key c st
      (Err e, logged (CallPresign key ttl (Some e)) (bucket st) st)
| link_stored m u0 u :
    heap st !! c = Some m ->
    cache.Get (clock st) m key = (u0, false) ->
    svc_Presign svc (bucket st) key ttl (clock st) = (u, None) ->
    link_run key c st
      (Ok u,
       withHeap
         (<[c := cache.Set' m key u (time.Add (clock st) ttl)]> (heap st))
         (logged (CallPresign key ttl None) (bucket st) st)).

(** What one run of the loop over [resp.Contents] does to the state and
    to the slice. *)
Record contents_run (folderPath : string) (c : nat)
    (contents : list s3.Object) (fileCount : Z)
    (objects : list ObjectDetails) (st : State B)
    (run : Outcome (Z * list ObjectDetails) * State B)
    (cr_new : list Call) : Prop := {
  cr_calls : calls run.2 = calls st ++ cr_new;
  cr_bucket : bucket run.2 = bucket st;
  cr_clock : clock run.2 = clock st;
  cr_heap : List.length (heap run.2) = List.length (heap st);
  cr_presign : Forall (fun call => is_presign call = true) cr_new;
  cr_surfaced :
    forall call e, call ∈ cr_new -> call_error call = Some e ->
                   run.1 = Err e;
  cr_fuel : run.1 <> OutOfFuel;
  cr_panic : is_Some (heap st !! c) -> run.1 <> Panic;
  cr_ok :
    forall fc' objs', run.1 = Ok (fc', objs') ->
      exists recs,
        objs' = objects ++ recs
        /\ Forall2 recordOf (kept folderPath contents) recs
        /\ fc' = Nat.iter (List.length recs) bump fileCount
}.

(** The contract of a prefix/delimiter listing on its common prefixes: each
    is the prefix, a segment, and the delimiter that closes the segment. *)
Definition delimited (prefix : string) (resp : s3.ListObjectsV2Output)
  : Prop :=
  forall cp, cp ∈ s3.CommonPrefixes resp ->
    exists segment, cp = String.append prefix (String.append segment "/").

(** Lexicographic order of keys, the enumeration order of the backend. *)
Fixpoint key_ordered (keys : list string) : bool :=
  match keys with
  | a :: (b :: _) as rest => String.leb a b && key_ordered rest
  | _ => true
  end.

Definition presigns (st : State B) : nat :=
  List.length (List.filter is_presign (calls st)).

(** The sentence of the specification on the link cache, as it is written:
    two lookups of a key within the validity of each other presign at most
    once and return the same URL. *)
Definition link_cache_claim (key : string) (c : nat) (st : State B) (t : Z)
  : Prop :=
  (clock st <= t < clock st + ttl)%Z ->
  let first := GenerateDownloadLink svc key c st in
  let second := GenerateDownloadLink svc key c (at_time t first.2) in
  presigns second.2 - presigns st <= 1 /\ second.1 = first.1.

(** The log entries of a run of deletes that stopped at [failed], if at all. *)
Definition failedCall (failed : option (string * error)) : list Call :=
  match failed with
  | Some (key, e) => [CallDeleteObject key (Some e)]
  | None => []
  end.

Definition failedKey (failed : option (string * error)) : list string :=
  match failed with
  | Some (key, _) => [key]
  | None => []
  end.

(** The bucket after the delete requests for [keys], in order. *)
Definition afterDeletes (keys : list string) (b : B) : B :=
  fold_left (fun b key => (svc_DeleteObject svc b key).2) keys b.

(** Delete requests for [keys], one after the other, up to the first error. *)
Fixpoint deleteKeys (keys : list string) : M B unit :=
  match keys with
  | [] => ret tt
  | key :: rest => DeleteObject svc key ;;; deleteKeys rest
  end.

(** The sentence of the specification on backend errors, for the first
    listing call of [ListAllFolders]: its error reaches the caller. *)
Definition list_error_propagated (fuel : nat) (folderPath : string)
    (st : State B) : Prop :=
  forall e,
    (svc_ListObjectsV2 svc (bucket st)
       (flatInput (normalizeFolderPath folderPath) 1000 None)).1.2 = Some e ->
    (ListAllFolders svc fuel folderPath st).1 = Err e.

(** The ordering sentence of the specification, as it is written: the
    records of a page come in one lexicographic order of keys, folders and
    files interleaved. *)
Definition enumeration_order_claim (folderPath tok : string) (pageSize : Z)
    (isFolder : bool) (c : nat) (st : State B) : Prop :=
  forall page,
    (ListFiles svc folderPath tok pageSize isFolder c st).1 = Ok page ->
    key_ordered (map Name (Files page)) = true.
End Vocabulary.

(** The names a listing returned; none when it failed. *)
Definition listed (r : Outcome ListFilesResponse) : list string :=
  match r with
  | Ok resp => map Name (Files resp)
  | _ => []
  end.

Definition returned {A} (r : Outcome A) : bool :=
  match r with
  | Ok _ => true
  | _ => false
  end.

(** ** Scenarios *)

(** Section 8: folder "docs/" holding "docs/a.txt" (5 bytes) and the marker
    "docs/sub/", listed with page size 10. *)
Definition docs_bucket : list s3.Object :=
  [Store.file "docs/" 0; Store.file "docs/a.txt" 5; Store.file "docs/sub/" 0].

Definition docs_api : S3API Store.t := Store.api Store.sign.

Definition docs_start : State Store.t := Store.start docs_bucket.

(** The same bucket while the store refuses requests. *)
Definition docs_outage : State Store.t :=
  {| bucket := {| Store.objects := docs_bucket; Store.locked := [];
                  Store.down := true |};
     clock := 0; heap := [∅]; calls := [] |}.

Definition docs_sub : ObjectDetails :=
  {| Name := "docs/sub/"; IsFolder := true; Size := 0;
     LastModified := 0; DownloadLink := "" |}.

Definition docs_page : ListFilesResponse :=
  {| Files :=
       [ {| Name := "docs/sub/"; IsFolder := true; Size := 0;
            LastModified := 0; DownloadLink := "" |};
         {| Name := "docs/a.txt"; IsFolder := false; Size := 5;
            LastModified := 0;
            DownloadLink := "https://bucket.s3/docs/a.txt" |} ];
     NextPageToken := "";
     IsLastPage := true;
     NoOfRecordsReturned := 2;
     FilesCount := 1;
     FoldersCount := 1 |}.

(** A lookup of "docs/a.txt" at instant 0 on an empty cache, and the state it
    leaves, one nanosecond before the entry expires. *)
Definition stamped_api : S3API Store.t := Store.api Store.stamped.

Definition first_lookup : Outcome string * State Store.t :=
  GenerateDownloadLink stamped_api "docs/a.txt" 0 docs_start.

Definition nearly_expired : State Store.t :=
  at_time (ttl - 1) first_lookup.2.

(** Folder "docs/" with four keys under it. *)
Definition four_bucket : list s3.Object :=
  [Store.file "docs/" 0; Store.file "docs/a" 1; Store.file "docs/b" 1;
   Store.file "docs/c" 1; Store.file "docs/d" 1].

(** The bucket of [docs_bucket] with deletion of "docs/sub/" refused. *)
Definition docs_locked : State Store.t :=
  {| bucket := {| Store.objects := docs_bucket; Store.locked := ["docs/sub/"];
                  Store.down := false |};
     clock := 0; heap := [∅]; calls := [] |}.

Definition docs_a_txt : ObjectDetails :=
  {| Name := "docs/a.txt"; IsFolder := false; Size := 5;
     LastModified := 0; DownloadLink := "" |}.

(** Eleven files at the root and one file in folder "z/": the root takes two
    pages of the size [ListAllFiles] lists with. *)
Definition root_bucket : list s3.Object :=
  map (fun key => Store.file key 1)
    ["a01"; "a02"; "a03"; "a04"; "a05"; "a06"; "a07"; "a08"; "a09"; "a10";
     "a11"; "z/x"].

(** Section 8: folder "docs/" with 1500 keys under it. *)
Definition numbered (i : nat) : s3.Object :=
  Store.file
    (String.append "docs/k"
       (NilZero.string_of_int (Z.to_int (10000 + Z.of_nat i)))) 1.

Definition big_bucket : list s3.Object :=
  Store.file "docs/" 0 :: map numbered (seq 1 1500).

(** Folder "docs/" with one file: its flat listing fits the first request of
    [DeleteFolder]. *)
Definition small_bucket : list s3.Object :=
  [Store.file "docs/" 0; Store.file "docs/a.txt" 5].

(** The reference store when it rejects every continuation token. *)
Definition expiring_api : S3API Store.t :=
  {| svc_ListObjectsV2 := fun b input =>
       match s3.ContinuationToken input with
       | Some _ => ((Store.emptyOutput, Some "InvalidArgument"), b)
       | None => Store.listObjectsV2 b input
       end;
     svc_DeleteObject := Store.delete;
     svc_Presign := fun _ => Store.sign |}.

(** A zero-size entry. *)
Definition zeroSize (o : s3.Object) : bool := (s3.Size o =? 0)%Z.

(** The record of a zero-size object other than the folder [path]. *)
Definition folderEntry (path : string) (d : ObjectDetails) : Prop :=
  IsFolder d = true /\ Size d = 0%Z /\ Name d <> path /\ DownloadLink d = "".

(** The listing of [small_bucket]'s folder. *)
Definition small_page : ListFilesResponse :=
  {| Files :=
       [ {| Name := "docs/a.txt"; IsFolder := false; Size := 5;
            LastModified := 0;
            DownloadLink := "https://bucket.s3/docs/a.txt" |} ];
     NextPageToken := "";
     IsLastPage := true;
     NoOfRecordsReturned := 1;
     FilesCount := 1;
     FoldersCount := 0 |}.

(** [PutObject] on the reference store: the object takes its place in key
    order, replacing an object of the same key. *)
Fixpoint insertObject (o : s3.Object) (l : list s3.Object) : list s3.Object :=
  match l with
  | [] => [o]
  | x :: rest =>
      if String.ltb (s3.Key o) (s3.Key x) then o :: l
      else if String.eqb (s3.Key o) (s3.Key x) then o :: rest
      else x :: insertObject o rest
  end.

Definition store_put : PutAPI Store.t :=
  {| svc_PutObject := fun b key body =>
       (None,
        {| Store.objects :=
             insertObject (Store.file key (Z.of_nat (String.length body)))
               (Store.objects b);
           Store.locked := Store.locked b; Store.down := Store.down b |}) |}.


(** The state with another bucket. *)
Definition withBucket {B} (b : B) (st : State B) : State B :=
  {| bucket := b; clock := clock st; heap := heap st; calls := calls st |}.

(** * Properties *)

(** ** Arithmetic of the counters *)

Lemma wrap32_small (z : Z) : (0 <= z < 2 ^ 31)%Z -> wrap32 z = z.
Proof.
  intros Hz. unfold wrap32.
  rewrite Z.mod_small by lia. lia.
Qed.

Section ListingFacts.
Context {B : Type} (svc : S3API B).

Lemma GenerateDownloadLink_run key c st :
  link_run svc key c st (GenerateDownloadLink svc key c st).
Proof.
  unfold GenerateDownloadLink, bind, cacheGet.
  destruct (heap st !! c) as [m|] eqn:Hm; [|by constructor].
  destruct (cache.Get (clock st) m key) as [u0 [|]] eqn:Hget.
  { by econstructor. }
  unfold Presign. fold ttl.
  destruct (svc_Presign svc (bucket st) key ttl (clock st)) as [u [e|]] eqn:Hp.
  { by econstructor. }
  cbn. unfold cacheSet. cbn. rewrite Hm. by econstructor.
Qed.

Lemma appendCommonPrefixes_run prefixes : forall objects (st : State B),
  appendCommonPrefixes prefixes objects st
  = (Ok (objects ++ map (folderRecord (clock st)) prefixes), st).
Proof.
  induction prefixes as [|p rest IH]; intros objects st; cbn.
  - by rewrite app_nil_r.
  - unfold bind, Now. rewrite IH. by rewrite <- app_assoc.
Qed.

Lemma alter_last (f : ObjectDetails -> ObjectDetails) objects d :
  alter f (List.length (objects ++ [d]) - 1) (objects ++ [d])
  = objects ++ [f d].
Proof.
  rewrite length_app. cbn.
  replace (List.length objects + 1 - 1) with (List.length objects + 0) by lia.
  by rewrite alter_app_r.
Qed.

Lemma appendContents_run folderPath c contents : forall fileCount objects st,
  exists new,
    contents_run folderPath c contents fileCount objects st
      (appendContents svc folderPath c contents fileCount objects st) new.
Proof.
  induction contents as [|obj rest IH]; intros fileCount objects st; cbn.
  - exists []; split; cbn; try done.
    + by rewrite app_nil_r.
    + intros call e Hin. by apply elem_of_nil in Hin.
    + intros fc' objs' [= <- <-]. exists []. by rewrite app_nil_r.
  - destruct (String.eqb (s3.Key obj) folderPath) eqn:Hkey; cbn.
    { destruct (IH fileCount objects st) as [new [? ? ? ? ? ? ? ? Hok]].
      exists new; split; try done.
      unfold kept. cbn [List.filter]. by rewrite Hkey. }
    unfold bind.
    destruct (GenerateDownloadLink_run (s3.Key obj) c st)
      as [Hnil | m u Hm Hget | m u0 u e Hm Hget Hp | m u0 u Hm Hget Hp].
    + exists []; split; cbn; try done.
      * by rewrite app_nil_r.
      * intros call e Hin. by apply elem_of_nil in Hin.
      * intros [x Hx]. congruence.
    + rewrite alter_last.
      destruct (IH (wrap32 (fileCount + 1))
                  (objects ++ [withDownloadLink u (detailsOf obj)]) st)
        as [new [? ? ? ? ? ? ? ? Hok]].
      exists new; split; try done.
      intros fc' objs' Hrun. destruct (Hok _ _ Hrun) as (recs & -> & HF & ->).
      exists (withDownloadLink u (detailsOf obj) :: recs).
      rewrite <- app_assoc. split; [done|]. split.
      * unfold kept. cbn [List.filter]. rewrite Hkey. by constructor.
      * cbn [List.length]. by rewrite Nat.iter_succ_r.
    + exists [CallPresign (s3.Key obj) ttl (Some e)]; split; cbn; try done.
      * by repeat constructor.
      * intros call e' Hin Herr. apply list_elem_of_singleton in Hin.
        subst call. cbn in Herr. congruence.
    + rewrite alter_last.
      set (st1 := withHeap _ _).
      destruct (IH (wrap32 (fileCount + 1))
                  (objects ++ [withDownloadLink u (detailsOf obj)]) st1)
        as [new [Hc Hb Hk Hh HP Hs Hf Hpn Hok]].
      exists (CallPresign (s3.Key obj) ttl None :: new); split.
      * rewrite Hc. subst st1. cbn. by rewrite <- app_assoc.
      * by rewrite Hb.
      * by rewrite Hk.
      * rewrite Hh. subst st1. cbn. by rewrite length_insert.
      * by constructor.
      * intros call e Hin Herr. apply elem_of_cons in Hin as [-> | Hin].
        { by cbn in Herr. }
        by apply (Hs call).
      * done.
      * intros Hsome. apply Hpn. subst st1. cbn.
        apply lookup_lt_is_Some. rewrite length_insert.
        by apply lookup_lt_is_Some.
      * intros fc' objs' Hrun. destruct (Hok _ _ Hrun) as (recs & -> & HF & ->).
        exists (withDownloadLink u (detailsOf obj) :: recs).
        rewrite <- app_assoc. split; [done|]. split.
        { unfold kept. cbn [List.filter]. rewrite Hkey. by constructor. }
        cbn [List.length]. by rewrite Nat.iter_succ_r.
Qed.

Lemma ListFiles_ok folderPath tok pageSize isFolder c st page :
  (ListFiles svc folderPath tok pageSize isFolder c st).1 = Ok page ->
  let resp := (pageAnswer svc folderPath tok pageSize st).1 in
  (pageAnswer svc folderPath tok pageSize st).2 = None
  /\ exists recs,
       Files page
       = map (folderRecord (clock st)) (s3.CommonPrefixes resp) ++ recs
       /\ Forall2 recordOf (pageContents folderPath isFolder resp) recs
       /\ FilesCount page = Nat.iter (List.length recs) bump 0%Z
       /\ NoOfRecordsReturned page
          = wrap32 (Z.of_nat (List.length (Files page)))
       /\ FoldersCount page
          = wrap32 (Z.of_nat (List.length (s3.CommonPrefixes resp)))
       /\ NextPageToken page
          = default "" (s3.NextContinuationToken resp)
       /\ IsLastPage page = negb (s3.IsTruncated resp).
Proof.
  unfold ListFiles, pageAnswer, pageInput, bind, ListObjectsV2.
  destruct (svc_ListObjectsV2 _ _ _) as [[resp err] b]. cbn [fst snd].
  rewrite appendCommonPrefixes_run. cbn [clock logged].
  destruct err as [e|]; [done|].
  unfold pageContents. destruct isFolder; cbn [negb].
  - cbn. intros [= <-]. split; [done|]. exists []. cbn.
    rewrite app_nil_r. repeat split; try done.
  - set (st1 := logged _ _ _).
    destruct (appendContents_run (normalizeFolderPath folderPath) c
                (s3.Contents resp) 0%Z
                (map (folderRecord (clock st)) (s3.CommonPrefixes resp)) st1)
      as [new [_ _ _ _ _ _ _ _ Hok]].
    destruct (appendContents _ _ _ _ _ _ _) as [[[fc objs]| | |] st2];
      cbn; try done.
    intros [= <-]. split; [done|].
    destruct (Hok fc objs eq_refl) as (recs & -> & HF & ->).
    exists recs. cbn. repeat split; try done.
Qed.

(** The backend calls of one [ListFiles], and how their errors come out. *)
Lemma ListFiles_calls folderPath tok pageSize isFolder c st :
  let run := ListFiles svc folderPath tok pageSize isFolder c st in
  exists new,
    calls run.2
    = calls st
      ++ CallListObjectsV2 (pageInput folderPath tok pageSize)
           (pageAnswer svc folderPath tok pageSize st).2 :: new
    /\ Forall (fun call => is_presign call = true) new
    /\ (forall e, (pageAnswer svc folderPath tok pageSize st).2 = Some e ->
                  run.1 = Err e /\ new = [])
    /\ (forall call e, call ∈ new -> call_error call = Some e ->
                       run.1 = Err e)
    /\ run.1 <> OutOfFuel
    /\ (is_Some (heap st !! c) -> run.1 <> Panic).
Proof.
  unfold ListFiles, pageAnswer, pageInput, bind, ListObjectsV2.
  destruct (svc_ListObjectsV2 _ _ _) as [[resp err] b]. cbn [fst snd].
  rewrite appendCommonPrefixes_run.
  destruct err as [e|].
  { exists []. cbn. split; [done|]. split; [done|].
    split; [by intros e' [= ->]|]. split; [|done].
    intros call e' Hin. by apply elem_of_nil in Hin. }
  destruct isFolder; cbn [negb].
  { exists []. cbn. split; [done|]. split; [done|].
    split; [done|]. split; [|done].
    intros call e' Hin. by apply elem_of_nil in Hin. }
  set (st1 := logged _ _ _).
  destruct (appendContents_run (normalizeFolderPath folderPath) c
              (s3.Contents resp) 0%Z
              (map (folderRecord (clock st1)) (s3.CommonPrefixes resp)) st1)
    as [new [Hc _ _ _ HP Hs Hf Hpn _]].
  exists new.
  destruct (appendContents _ _ _ _ _ _ _) as [[[fc objs]| | |] st2];
    cbn in *; rewrite Hc; rewrite <- app_assoc; split_and!; try done.
  all: try (intros call e' Hin Herr; specialize (Hs call e' Hin Herr);
            congruence).
  intros Hsome. by destruct (Hpn Hsome).
Qed.
End ListingFacts.

(** ** [ListFiles]: the claims *)

Lemma length_append (a b : string) :
  String.length (String.append a b) = String.length a + String.length b.
Proof. induction a as [|ch a IH]; simpl; [done | by f_equal]. Qed.

Lemma iter_bump (n : nat) : forall z,
  (0 <= z)%Z -> (z + Z.of_nat n < 2 ^ 31)%Z ->
  Nat.iter n bump z = (z + Z.of_nat n)%Z.
Proof.
  induction n as [|n IH]; intros z Hz Hn.
  - cbn. lia.
  - rewrite Nat.iter_succ_r. unfold bump at 2.
    rewrite wrap32_small by lia. rewrite IH by lia. lia.
Qed.

Lemma recordOf_names os recs :
  Forall2 recordOf os recs -> map Name recs = map s3.Key os.
Proof.
  induction 1 as [|o d os recs Hod _ IH]; cbn; [done|].
  rewrite IH. f_equal.
  unfold recordOf in Hod. by apply (f_equal Name) in Hod.
Qed.

Section ListFilesClaims.
Context {B : Type} (svc : S3API B).

(** C4.  Whatever the folder path, the continuation token, the page size
    and the folders-only flag, a page [ListFiles] returns holds no record
    whose name is the normalized folder path: the folder's own marker is
    skipped among the contents, and a common prefix of a delimited listing
    is longer than the prefix. *)
Theorem ListFiles_excludes_own_marker
    (folderPath tok : string) (pageSize : Z) (isFolder : bool) (c : nat)
    (st : State B) (page : ListFilesResponse) (d : ObjectDetails) :
  delimited (normalizeFolderPath folderPath)
    (pageAnswer svc folderPath tok pageSize st).1 ->
  (ListFiles svc folderPath tok pageSize isFolder c st).1 = Ok page ->
  d ∈ Files page ->
  Name d <> normalizeFolderPath folderPath.
Proof.
  intros Hdel Hrun Hd.
  destruct (ListFiles_ok svc _ _ _ _ _ _ _ Hrun) as (_ & recs & HF & Hrec & _).
  rewrite HF in Hd. apply elem_of_app in Hd as [Hd | Hd].
  - apply list_elem_of_fmap in Hd as (cp & -> & Hcp). cbn.
    destruct (Hdel cp Hcp) as [segment ->]. intros Heq.
    apply (f_equal String.length) in Heq.
    rewrite !length_append in Heq. cbn in Heq. lia.
  - unfold pageContents in Hrec. destruct isFolder.
    { apply Forall2_nil_inv_l in Hrec. subst recs.
      by apply elem_of_nil in Hd. }
    apply list_elem_of_lookup in Hd as [i Hi].
    destruct (Forall2_lookup_r _ _ _ _ _ Hrec Hi) as (o & Ho & Hod).
    apply list_elem_of_lookup_2 in Ho. unfold kept in Ho.
    apply list_elem_of_In, filter_In in Ho as [_ Hne].
    apply negb_true_iff, String.eqb_neq in Hne.
    unfold recordOf in Hod. apply (f_equal Name) in Hod. cbn in Hod.
    congruence.
Qed.

(** C5.  Every backend call of one [ListFiles] — the listing call and the
    presign calls for the records — that comes back with an error makes the
    whole call return that error; the call ends either with an error or
    with a page that has a record for every common prefix and every content
    entry it was to list. *)
Theorem ListFiles_error_policy
    (folderPath tok : string) (pageSize : Z) (isFolder : bool) (c : nat)
    (st : State B) :
  is_Some (heap st !! c) ->
  let run := ListFiles svc folderPath tok pageSize isFolder c st in
  let resp := (pageAnswer svc folderPath tok pageSize st).1 in
  exists new,
    calls run.2 = calls st ++ new
    /\ (forall call e, call ∈ new -> call_error call = Some e ->
                      run.1 = Err e)
    /\ ((exists e, run.1 = Err e)
        \/ (exists page,
              run.1 = Ok page
              /\ Forall (fun call => call_error call = None) new
              /\ map Name (Files page)
                 = s3.CommonPrefixes resp
                   ++ map s3.Key (pageContents folderPath isFolder resp))).
Proof.
  intros Hc run resp.
  destruct (ListFiles_calls svc folderPath tok pageSize isFolder c st)
    as (new & Hcalls & _ & Hlist & Hsurf & Hfuel & Hpanic).
  fold run in Hcalls, Hlist, Hsurf, Hfuel, Hpanic.
  set (first := CallListObjectsV2 _ _) in Hcalls.
  assert (Hall : forall call e, call ∈ first :: new ->
                   call_error call = Some e -> run.1 = Err e).
  { intros call e Hin Herr. apply elem_of_cons in Hin as [-> | Hin].
    - cbn in Herr. by apply Hlist.
    - by apply (Hsurf call). }
  exists (first :: new). split; [done|]. split; [done|].
  destruct (run.1) as [page| e | |] eqn:Hrun.
  - right. exists page. split; [done|]. split.
    + apply Forall_forall. intros call Hin.
      destruct (call_error call) as [e|] eqn:Herr; [|done].
      by specialize (Hall call e Hin Herr).
    + destruct (ListFiles_ok svc _ _ _ _ _ _ _ Hrun)
        as (_ & recs & -> & Hrec & _).
      rewrite map_app, map_map. cbn. rewrite map_id.
      by rewrite (recordOf_names _ _ Hrec).
  - left. by exists e.
  - by destruct (Hpanic Hc).
  - done.
Qed.

(** C9, as the code has it.  The records of a page are grouped, not
    interleaved: first one folder record for each common prefix, in the
    order the backend gave them, then one record for each content entry
    but the folder's own, in the order the backend gave them. *)
Theorem ListFiles_order
    (folderPath tok : string) (pageSize : Z) (isFolder : bool) (c : nat)
    (st : State B) (page : ListFilesResponse) :
  (ListFiles svc folderPath tok pageSize isFolder c st).1 = Ok page ->
  let resp := (pageAnswer svc folderPath tok pageSize st).1 in
  exists folders files,
    Files page = folders ++ files
    /\ map Name folders = s3.CommonPrefixes resp
    /\ Forall (fun d => IsFolder d = true) folders
    /\ map Name files = map s3.Key (pageContents folderPath isFolder resp).
Proof.
  intros Hrun resp.
  destruct (ListFiles_ok svc _ _ _ _ _ _ _ Hrun) as (_ & recs & HF & Hrec & _).
  exists (map (folderRecord (clock st)) (s3.CommonPrefixes resp)), recs.
  split; [done|]. split; [|split].
  - rewrite map_map. cbn. by rewrite map_id.
  - apply Forall_forall. intros d Hd.
    by apply list_elem_of_fmap in Hd as (cp & -> & _).
  - by apply recordOf_names.
Qed.

(** C10.  On every page [ListFiles] returns, for both values of the
    folders-only flag, [NoOfRecordsReturned] is the length of [Files] and
    the sum of [FilesCount] and [FoldersCount]: the records are the folder
    records, counted by [FoldersCount], followed by the file records,
    counted by [FilesCount].  (The counters are [int32]: the length of
    [Files] is taken to fit.) *)
Theorem ListFiles_counts
    (folderPath tok : string) (pageSize : Z) (isFolder : bool) (c : nat)
    (st : State B) (page : ListFilesResponse) :
  (ListFiles svc folderPath tok pageSize isFolder c st).1 = Ok page ->
  (Z.of_nat (List.length (Files page)) < 2 ^ 31)%Z ->
  NoOfRecordsReturned page = (FilesCount page + FoldersCount page)%Z
  /\ NoOfRecordsReturned page = Z.of_nat (List.length (Files page))
  /\ exists folders files,
       Files page = folders ++ files
       /\ FoldersCount page = Z.of_nat (List.length folders)
       /\ FilesCount page = Z.of_nat (List.length files)
       /\ map Name folders
          = s3.CommonPrefixes (pageAnswer svc folderPath tok pageSize st).1.
Proof.
  intros Hrun Hlen.
  destruct (ListFiles_ok svc _ _ _ _ _ _ _ Hrun)
    as (_ & recs & HF & _ & Hfc & Hn & Hfo & _).
  rewrite HF, length_app, length_map in Hlen.
  assert (Hfiles : FilesCount page = Z.of_nat (List.length recs)).
  { rewrite Hfc, iter_bump by lia. lia. }
  assert (Hfolders :
    FoldersCount page
    = Z.of_nat (List.length
                  (s3.CommonPrefixes
                     (pageAnswer svc folderPath tok pageSize st).1))).
  { rewrite Hfo. apply wrap32_small. lia. }
  assert (Hall :
    NoOfRecordsReturned page = Z.of_nat (List.length (Files page))).
  { rewrite Hn. apply wrap32_small. rewrite HF, length_app, length_map. lia. }
  split; [|split; [done|]].
  - rewrite Hall, Hfiles, Hfolders, HF, length_app, length_map. lia.
  - eexists _, recs. split; [exact HF|]. rewrite length_map.
    split; [done|]. split; [done|].
    rewrite map_map. cbn. by rewrite map_id.
Qed.
End ListFilesClaims.

(** The scenarios of section 8 of the specification. *)
Example empty_bucket_page :
  (ListFiles docs_api "" "" 100 false 0 (Store.start [])).1
  = Ok {| Files := []; NextPageToken := ""; IsLastPage := true;
          NoOfRecordsReturned := 0; FilesCount := 0; FoldersCount := 0 |}.
Proof. vm_compute. reflexivity. Qed.

(** A presign that fails fails the page. *)
Example unsigned_page :
  (ListFiles (Store.api Store.unsigned) "docs" "" 10 false 0 docs_start).1
  = Err "SerializationError".
Proof. vm_compute. reflexivity. Qed.

Lemma docs_page_run :
  (ListFiles docs_api "docs" "" 10 false 0 docs_start).1 = Ok docs_page.
Proof. vm_compute. reflexivity. Qed.

Lemma ListFiles_excludes_own_marker_witness :
  delimited (normalizeFolderPath "docs")
    (pageAnswer docs_api "docs" "" 10 docs_start).1
  /\ (ListFiles docs_api "docs" "" 10 false 0 docs_start).1 = Ok docs_page
  /\ docs_sub ∈ Files docs_page
  /\ Name docs_sub <> normalizeFolderPath "docs".
Proof.
  assert (Hdel : delimited (normalizeFolderPath "docs")
                   (pageAnswer docs_api "docs" "" 10 docs_start).1).
  { intros cp Hcp.
    change (cp ∈ ["docs/sub/"]) in Hcp.
    apply list_elem_of_singleton in Hcp. subst cp.
    exists "sub". reflexivity. }
  assert (Hrun : (ListFiles docs_api "docs" "" 10 false 0 docs_start).1
                 = Ok docs_page).
  { vm_compute. reflexivity. }
  assert (Hin : docs_sub ∈ Files docs_page).
  { apply list_elem_of_here. }
  split; [exact Hdel|]. split; [exact Hrun|]. split; [exact Hin|].
  exact (ListFiles_excludes_own_marker docs_api "docs" "" 10 false 0
           docs_start docs_page docs_sub Hdel Hrun Hin).
Defined.

Lemma ListFiles_error_policy_witness :
  is_Some (heap docs_outage !! 0)
  /\ (ListFiles docs_api "docs" "" 10 false 0 docs_outage).1
     = Err "RequestError".
Proof.
  assert (Hc : is_Some (heap docs_outage !! 0)).
  { exists ∅. reflexivity. }
  split; [exact Hc|].
  destruct (ListFiles_error_policy docs_api "docs" "" 10 false 0
              docs_outage Hc) as (new & Hcalls & Hsurf & _).
  apply (Hsurf
           (CallListObjectsV2 (pageInput "docs" "" 10) (Some "RequestError"))).
  - change (calls docs_outage) with (@nil Call) in Hcalls.
    rewrite app_nil_l in Hcalls. rewrite <- Hcalls.
    vm_compute. apply list_elem_of_here.
  - reflexivity.
Defined.

Lemma ListFiles_order_witness :
  (ListFiles docs_api "docs" "" 10 false 0 docs_start).1 = Ok docs_page
  /\ exists folders files,
       Files docs_page = folders ++ files
       /\ map Name folders = ["docs/sub/"]
       /\ Forall (fun d => IsFolder d = true) folders
       /\ map Name files = ["docs/a.txt"].
Proof.
  assert (Hrun : (ListFiles docs_api "docs" "" 10 false 0 docs_start).1
                 = Ok docs_page).
  { vm_compute. reflexivity. }
  split; [exact Hrun|].
  exact (ListFiles_order docs_api "docs" "" 10 false 0 docs_start docs_page
           Hrun).
Defined.

(** C9, as the specification words it, fails on the scenario of its own
    section 8: the page is "docs/sub/" followed by "docs/a.txt". *)
Lemma enumeration_order_claim_fails :
  ~ enumeration_order_claim docs_api "docs" "" 10 false 0 docs_start.
Proof.
  intros Hclaim. specialize (Hclaim docs_page docs_page_run).
  vm_compute in Hclaim. discriminate Hclaim.
Qed.

Lemma ListFiles_counts_witness :
  (ListFiles docs_api "docs" "" 10 false 0 docs_start).1 = Ok docs_page
  /\ (Z.of_nat (List.length (Files docs_page)) < 2 ^ 31)%Z
  /\ NoOfRecordsReturned docs_page
     = (FilesCount docs_page + FoldersCount docs_page)%Z
  /\ NoOfRecordsReturned docs_page = Z.of_nat (List.length (Files docs_page)).
Proof.
  assert (Hrun : (ListFiles docs_api "docs" "" 10 false 0 docs_start).1
                 = Ok docs_page).
  { vm_compute. reflexivity. }
  assert (Hlen : (Z.of_nat (List.length (Files docs_page)) < 2 ^ 31)%Z).
  { reflexivity. }
  split; [exact Hrun|]. split; [exact Hlen|].
  destruct (ListFiles_counts docs_api "docs" "" 10 false 0 docs_start
              docs_page Hrun Hlen) as (Hsum & Hall & _).
  split; [exact Hsum | exact Hall].
Defined.

(** ** The reference store keeps the delimiter contract *)

Lemma substring_split (i k : nat) : forall s,
  substring 0 (i + k) s = String.append (substring 0 i s) (substring i k s).
Proof.
  induction i as [|i IH]; intros s.
  - by destruct k, s.
  - destruct s as [|ch s]; [done|]. cbn. by rewrite IH.
Qed.

Lemma group_sub (es : list Store.entry) : forall last e,
  e ∈ Store.group last es -> e ∈ es.
Proof.
  induction es as [|[o|p] es IH]; intros last e He; cbn in He.
  - done.
  - apply elem_of_cons in He as [-> | He]; [left | right; by eapply IH].
  - destruct (bool_decide (last = Some p)).
    + right. by eapply IH.
    + apply elem_of_cons in He as [-> | He]; [left | right; by eapply IH].
Qed.

Lemma classify_prefix prefix (o : s3.Object) cp :
  Store.classify prefix (Some "/") o = Store.EPrefix cp ->
  exists segment, cp = String.append prefix (String.append segment "/").
Proof.
  unfold Store.classify.
  set (rest := substring _ _ _).
  destruct (String.index 0 "/" rest) as [i|] eqn:Hi; [|done].
  intros [= <-]. exists (substring 0 i rest). f_equal.
  rewrite substring_split. f_equal.
  by apply (index_correct1 0 i "/" rest).
Qed.

(** Every common prefix the store returns for a listing delimited by "/" is
    the prefix, a segment and the delimiter. *)
Lemma Store_listing_delimited (b : Store.t) (input : s3.ListObjectsV2Input) :
  s3.Delimiter input = Some "/" ->
  delimited (s3.Prefix input) (Store.listObjectsV2 b input).1.1.
Proof.
  intros Hdel cp Hcp. unfold Store.listObjectsV2 in Hcp.
  destruct (Store.down b); [by apply elem_of_nil in Hcp|].
  cbn in Hcp. apply list_elem_of_omap in Hcp as (e & He & Hcp).
  destruct e as [o|p]; [done|]. injection Hcp as ->.
  apply list_elem_of_lookup in He as [i Hi].
  apply lookup_take_Some in Hi as [Hi _].
  apply list_elem_of_lookup_2 in Hi.
  unfold Store.entries in Hi. apply group_sub in Hi.
  apply list_elem_of_fmap in Hi as (o & Ho & _).
  rewrite Hdel in Ho. symmetry in Ho. by eapply classify_prefix.
Qed.

(** ** [GenerateDownloadLink]: the link cache *)

(** Two equations on the same call give one on its results. *)
Ltac same_call :=
  repeat match goal with
         | H1 : ?x = _, H2 : ?x = _ |- _ =>
             tryif is_var x then fail else (rewrite H1 in H2; simplify_eq)
         end.

Section LinkCache.
Context {B : Type} (svc : S3API B).

(** A miss followed by a successful presign stores the URL for [ttl]. *)
Lemma GenerateDownloadLink_store key c (st : State B) m u :
  heap st !! c = Some m ->
  (cache.Get (clock st) m key).2 = false ->
  svc_Presign svc (bucket st) key ttl (clock st) = (u, None) ->
  GenerateDownloadLink svc key c st
  = (Ok u,
     withHeap (<[c := cache.Set' m key u (time.Add (clock st) ttl)]> (heap st))
       (logged (CallPresign key ttl None) (bucket st) st)).
Proof.
  intros Hm Hmiss Hp.
  destruct (GenerateDownloadLink_run svc key c st)
    as [Hnil | m' u' Hm' Hget | m' u0 u' e Hm' Hget Hp' | m' u0 u' Hm' Hget Hp'];
    same_call; try done.
  by rewrite Hget in Hmiss.
Qed.

(** An entry that has not expired is returned, and nothing else happens. *)
Lemma GenerateDownloadLink_hit key c (st : State B) m e :
  heap st !! c = Some m ->
  m !! key = Some e ->
  (clock st < expiresAt e)%Z ->
  GenerateDownloadLink svc key c st = (Ok (url e), st).
Proof.
  intros Hm Hkey Hlt.
  assert (Hget : cache.Get (clock st) m key = (url e, true)).
  { unfold cache.Get. rewrite Hkey.
    by destruct (Z.ltb_spec (clock st) (expiresAt e)); [|lia]. }
  destruct (GenerateDownloadLink_run svc key c st)
    as [Hnil | m' u' Hm' Hget' | m' u0 u' e' Hm' Hget' Hp' | m' u0 u' Hm' Hget' Hp'];
    same_call; done.
Qed.

(** An entry that has expired is a miss: the URL is signed again. *)
Lemma GenerateDownloadLink_expired key c (st : State B) m e :
  heap st !! c = Some m ->
  m !! key = Some e ->
  (expiresAt e <= clock st)%Z ->
  let signed := svc_Presign svc (bucket st) key ttl (clock st) in
  let again := GenerateDownloadLink svc key c st in
  calls again.2 = calls st ++ [CallPresign key ttl signed.2]
  /\ again.1 = match signed.2 with Some err => Err err | None => Ok signed.1 end.
Proof.
  intros Hm Hkey Hle signed again.
  assert (Hget : cache.Get (clock st) m key = ("", false)).
  { unfold cache.Get. rewrite Hkey.
    by destruct (Z.ltb_spec (clock st) (expiresAt e)); [lia|]. }
  subst signed again.
  destruct (GenerateDownloadLink_run svc key c st)
    as [Hnil | m' u' Hm' Hget' | m' u0 u' e' Hm' Hget' Hp' | m' u0 u' Hm' Hget' Hp'];
    same_call; by rewrite Hp'.
Qed.

(** C3, as the code has it.  When a lookup of [key] misses and its presign
    succeeds, the URL is stored for 15 minutes from that instant.  Every
    lookup of [key] before that expiry returns the same URL and makes no
    backend call, so the two lookups presign once; a lookup at or after the
    expiry presigns again and returns what that presign yields. *)
Theorem GenerateDownloadLink_memoizes
    (key : string) (c : nat) (st : State B)
    (m : gmap string CacheEntry) (u : string) :
  heap st !! c = Some m ->
  (cache.Get (clock st) m key).2 = false ->
  svc_Presign svc (bucket st) key ttl (clock st) = (u, None) ->
  let first := GenerateDownloadLink svc key c st in
  first.1 = Ok u
  /\ calls first.2 = calls st ++ [CallPresign key ttl None]
  /\ (forall t, (clock st <= t < clock st + ttl)%Z ->
        GenerateDownloadLink svc key c (at_time t first.2)
        = (Ok u, at_time t first.2))
  /\ (forall t, (clock st + ttl <= t)%Z ->
        let signed := svc_Presign svc (bucket st) key ttl t in
        let again := GenerateDownloadLink svc key c (at_time t first.2) in
        calls again.2 = calls first.2 ++ [CallPresign key ttl signed.2]
        /\ again.1
           = match signed.2 with Some err => Err err | None => Ok signed.1 end).
Proof.
  intros Hm Hmiss Hp first. subst first.
  rewrite (GenerateDownloadLink_store key c st m u Hm Hmiss Hp).
  set (entry := {| url := u; expiresAt := time.Add (clock st) ttl |}).
  set (st1 := withHeap _ _).
  assert (Hm1 : forall t, heap (at_time t st1) !! c
                          = Some (cache.Set' m key u (time.Add (clock st) ttl))).
  { intros t. cbn. apply list_lookup_insert_eq. by eapply lookup_lt_Some. }
  assert (Hkey : cache.Set' m key u (time.Add (clock st) ttl) !! key
                 = Some entry).
  { unfold cache.Set'. apply lookup_insert_eq. }
  split; [done|]. split; [done|]. split.
  - intros t Ht.
    apply (GenerateDownloadLink_hit key c (at_time t st1) _ entry (Hm1 t) Hkey).
    cbn. unfold time.Add. lia.
  - intros t Ht.
    apply (GenerateDownloadLink_expired key c (at_time t st1) _ entry
             (Hm1 t) Hkey).
    cbn. unfold time.Add. lia.
Qed.
End LinkCache.

Lemma GenerateDownloadLink_memoizes_witness :
  heap docs_start !! 0 = Some ∅
  /\ (cache.Get (clock docs_start) ∅ "docs/a.txt").2 = false
  /\ svc_Presign stamped_api (bucket docs_start) "docs/a.txt" ttl
       (clock docs_start)
     = ("https://bucket.s3/docs/a.txt?X-Amz-Date=0", None)
  /\ first_lookup.1 = Ok "https://bucket.s3/docs/a.txt?X-Amz-Date=0"
  /\ GenerateDownloadLink stamped_api "docs/a.txt" 0 nearly_expired
     = (Ok "https://bucket.s3/docs/a.txt?X-Amz-Date=0", nearly_expired).
Proof.
  assert (Hm : heap docs_start !! 0 = Some (∅ : gmap string CacheEntry)).
  { reflexivity. }
  assert (Hmiss : (cache.Get (clock docs_start) ∅ "docs/a.txt").2 = false).
  { reflexivity. }
  assert (Hp : svc_Presign stamped_api (bucket docs_start) "docs/a.txt" ttl
                 (clock docs_start)
               = ("https://bucket.s3/docs/a.txt?X-Amz-Date=0", None)).
  { vm_compute. reflexivity. }
  split; [exact Hm|]. split; [exact Hmiss|]. split; [exact Hp|].
  destruct (GenerateDownloadLink_memoizes stamped_api "docs/a.txt" 0
              docs_start ∅ _ Hm Hmiss Hp) as (Hfirst & _ & Hwithin & _).
  split; [exact Hfirst|].
  apply (Hwithin (ttl - 1)%Z).
  change (0 <= ttl - 1 < 0 + ttl)%Z.
  unfold ttl, time.Minute, time.Second. lia.
Defined.

(** C3, as the specification words it, fails: a lookup one nanosecond before
    the stored entry expires and a lookup one nanosecond later are within the
    validity of each other, and they return different URLs. *)
Lemma link_cache_claim_fails :
  ~ link_cache_claim stamped_api "docs/a.txt" 0 nearly_expired ttl.
Proof.
  intros Hclaim.
  assert (Ht : (clock nearly_expired <= ttl < clock nearly_expired + ttl)%Z).
  { change (ttl - 1 <= ttl < ttl - 1 + ttl)%Z.
    unfold ttl, time.Minute, time.Second. lia. }
  destruct (Hclaim Ht) as [_ Hsame].
  vm_compute in Hsame. discriminate Hsame.
Qed.

(** ** [DeleteFolder]: the deletes *)

Section Deletes.
Context {B : Type} (svc : S3API B).

Lemma DeleteObject_run key (st : State B) :
  DeleteObject svc key st
  = (match (svc_DeleteObject svc (bucket st) key).1 with
     | Some e => Err e
     | None => Ok tt
     end,
     logged (CallDeleteObject key (svc_DeleteObject svc (bucket st) key).1)
       (svc_DeleteObject svc (bucket st) key).2 st).
Proof.
  unfold DeleteObject, bind, svcDeleteObject.
  by destruct (svc_DeleteObject svc (bucket st) key) as [[e|] b].
Qed.

Lemma deleteObjects_then_marker objs folderPath : forall st : State B,
  (deleteObjects svc objs ;;; DeleteObject svc folderPath) st
  = deleteKeys svc (map Name objs ++ [folderPath]) st.
Proof.
  induction objs as [|obj rest IH]; intros st; cbn.
  - unfold bind, ret. rewrite DeleteObject_run.
    by destruct (svc_DeleteObject svc (bucket st) folderPath).1.
  - unfold bind in *. rewrite DeleteObject_run.
    destruct (svc_DeleteObject svc (bucket st) (Name obj)).1; [done|].
    apply IH.
Qed.

Lemma deleteKeys_run keys : forall st : State B,
  let run := deleteKeys svc keys st in
  exists done failed,
    calls run.2
    = calls st ++ map (fun key => CallDeleteObject key None) done
        ++ failedCall failed
    /\ bucket run.2 = afterDeletes svc (done ++ failedKey failed) (bucket st)
    /\ clock run.2 = clock st /\ heap run.2 = heap st
    /\ match failed with
       | None => done = keys /\ run.1 = Ok tt
       | Some (key, e) =>
           (exists rest, keys = done ++ key :: rest) /\ run.1 = Err e
       end.
Proof.
  induction keys as [|key rest IH]; intros st; cbn.
  - exists [], None. cbn. by rewrite app_nil_r.
  - unfold bind. rewrite DeleteObject_run.
    destruct (svc_DeleteObject svc (bucket st) key) as [[e|] b] eqn:Hdel; cbn.
    + exists [], (Some (key, e)). cbn. rewrite Hdel. cbn.
      split_and!; try done. by exists rest.
    + set (st1 := logged _ _ _).
      destruct (IH st1) as (done & failed & Hc & Hb & Hk & Hh & Hres).
      exists (key :: done), failed. cbn. rewrite Hdel. cbn.
      split_and!; try done.
      * rewrite Hc. subst st1. cbn. by rewrite <- app_assoc.
      * destruct failed as [[k e]|].
        { destruct Hres as [[rest' ->] Hrun]. split; [|done]. by exists rest'. }
        destruct Hres as [-> Hrun]. done.
Qed.

(** C6.  Once the listing of [DeleteFolder] has collected its objects, the
    backend calls that follow are delete requests for the collected keys, one
    by one in the order collected, and for the folder path last.  The first
    of them that fails is the last call made and its error is the result;
    the keys after it, the folder path among them, are not requested.  The
    bucket is left as the requests made have left it: nothing is put back. *)
Theorem DeleteFolder_deletes_in_order
    (fuel : nat) (folderPath : string) (st : State B)
    (objs : list ObjectDetails) :
  let path := normalizeFolderPath folderPath in
  let listing := collectFolder svc fuel path st in
  listing.1 = Ok objs ->
  let keys := map Name objs ++ [path] in
  let run := DeleteFolder svc fuel folderPath st in
  exists done failed,
    calls run.2
    = calls listing.2 ++ map (fun key => CallDeleteObject key None) done
        ++ failedCall failed
    /\ bucket run.2
       = afterDeletes svc (done ++ failedKey failed) (bucket listing.2)
    /\ match failed with
       | None => done = keys /\ run.1 = Ok tt
       | Some (key, e) =>
           (exists rest, keys = done ++ key :: rest) /\ run.1 = Err e
       end.
Proof.
  intros path listing Hlist keys run.
  assert (Hrun : run = deleteKeys svc keys listing.2).
  { subst run listing keys path. unfold DeleteFolder.
    unfold bind at 1.
    destruct (collectFolder svc fuel (normalizeFolderPath folderPath) st)
      as [[objs'| | |] st1]; cbn in Hlist; simplify_eq.
    apply deleteObjects_then_marker. }
  rewrite Hrun.
  destruct (deleteKeys_run keys listing.2)
    as (done & failed & Hc & Hb & _ & _ & Hres).
  by exists done, failed.
Qed.
End Deletes.

Lemma DeleteFolder_deletes_in_order_witness :
  (collectFolder docs_api 10 (normalizeFolderPath "docs") docs_locked).1
  = Ok [docs_a_txt; docs_sub]
  /\ exists done failed,
       calls (DeleteFolder docs_api 10 "docs" docs_locked).2
       = calls (collectFolder docs_api 10 "docs/" docs_locked).2
           ++ map (fun key => CallDeleteObject key None) done
           ++ failedCall failed
       /\ bucket (DeleteFolder docs_api 10 "docs" docs_locked).2
          = afterDeletes docs_api (done ++ failedKey failed)
              (bucket (collectFolder docs_api 10 "docs/" docs_locked).2)
       /\ match failed with
          | None =>
              done = ["docs/a.txt"; "docs/sub/"; "docs/"]
              /\ (DeleteFolder docs_api 10 "docs" docs_locked).1 = Ok tt
          | Some (key, e) =>
              (exists rest,
                 ["docs/a.txt"; "docs/sub/"; "docs/"] = done ++ key :: rest)
              /\ (DeleteFolder docs_api 10 "docs" docs_locked).1 = Err e
          end.
Proof.
  assert (Hlist :
    (collectFolder docs_api 10 (normalizeFolderPath "docs") docs_locked).1
    = Ok [docs_a_txt; docs_sub]).
  { vm_compute. reflexivity. }
  split; [exact Hlist|].
  exact (DeleteFolder_deletes_in_order docs_api 10 "docs" docs_locked
           [docs_a_txt; docs_sub] Hlist).
Defined.

(** On that bucket the delete of "docs/sub/" is refused: the error is the
    result, and the marker "docs/" is still there. *)
Example DeleteFolder_aborts_on_refusal :
  let run := DeleteFolder docs_api 10 "docs" docs_locked in
  run.1 = Err "AccessDenied" /\ Store.keys run.2 = ["docs/"; "docs/sub/"].
Proof. vm_compute. done. Qed.

(** ** [DeleteFolder]: the pagination loop *)

Lemma deleteFolderPages_done {B} (svc : S3API B) fuel folderPath allObjects :
  deleteFolderPages svc fuel folderPath allObjects None = ret allObjects.
Proof. by destruct fuel. Qed.

(** C2, on the code.  Folder "docs/" holds "docs/a" to "docs/d".  The first
    listing (two keys) collects "docs/a"; the second returns "docs/b",
    "docs/c", "docs/d" and no token, and the loop over it is left after
    "docs/b".  [DeleteFolder] deletes "docs/a", "docs/b" and the marker,
    returns no error, and "docs/c" and "docs/d" are still in the bucket. *)
Theorem DeleteFolder_leaves_descendants (fuel : nat) :
  let run := DeleteFolder docs_api (S fuel) "docs" (Store.start four_bucket) in
  run.1 = Ok tt
  /\ Store.keys run.2 = ["docs/c"; "docs/d"]
  /\ List.filter is_delete (calls run.2)
     = [CallDeleteObject "docs/a" None; CallDeleteObject "docs/b" None;
        CallDeleteObject "docs/" None].
Proof. destruct fuel; vm_compute; done. Qed.

(** The scenario of section 8 of the specification: of the 1500 keys under
    "docs/", 498 are left after a [DeleteFolder] that reports success. *)
Example DeleteFolder_section8 :
  let run := DeleteFolder docs_api 10 "docs/" (Store.start big_bucket) in
  run.1 = Ok tt
  /\ List.length (Store.keys run.2) = 498
  /\ List.length (List.filter is_list (calls run.2)) = 3
  /\ List.length (List.filter is_delete (calls run.2)) = 1003.
Proof. vm_compute. done. Qed.

Lemma listObjectsV2_empty (b : Store.t) (input : s3.ListObjectsV2Input) :
  Store.objects b = [] -> Store.down b = false ->
  (Store.listObjectsV2 b input).1 = (Store.emptyOutput, None).
Proof.
  intros Hobj Hup. unfold Store.listObjectsV2, Store.entries.
  rewrite Hup, Hobj. cbn [List.filter map Store.group fst].
  rewrite take_nil. cbn [omap list_omap last fmap option_fmap option_map].
  by destruct (Z.to_nat _).
Qed.

(** With the bucket emptied, the page for a token has no entry and no token,
    the token of the loop stays as it is, and the same request is sent
    again. *)
Lemma raced_pages_spin fuel folderPath token : forall allObjects st,
  Store.objects (bucket st) = [] -> Store.down (bucket st) = false ->
  (deleteFolderPages Store.raced fuel folderPath allObjects (Some token) st).1
  = OutOfFuel.
Proof.
  induction fuel as [|fuel IH]; intros allObjects st Hobj Hup; [done|].
  cbn [deleteFolderPages]. unfold bind, ListObjectsV2.
  cbn [svc_ListObjectsV2 Store.raced].
  rewrite (listObjectsV2_empty _ _ Hobj Hup). cbn.
  by apply IH.
Qed.

(** C7, on the code.  Folder "docs/" holds four keys; the first listing
    returns two of them and a token, and another client deletes the rest
    before the next request.  The page for the token is then empty, and
    [DeleteFolder] never leaves its pagination loop: whatever the fuel, it
    runs out. *)
Theorem DeleteFolder_spins_on_empty_page (fuel : nat) :
  (DeleteFolder Store.raced fuel "docs" (Store.start four_bucket)).1
  = OutOfFuel.
Proof.
  unfold DeleteFolder. unfold bind at 1.
  set (listing := collectFolder _ _ _ _).
  assert (Hspin : listing.1 = OutOfFuel).
  { subst listing. unfold collectFolder, bind, ListObjectsV2.
    cbn -[deleteFolderPages].
    by apply raced_pages_spin. }
  destruct listing as [[objs| | |] st1]; cbn in Hspin; by simplify_eq.
Qed.

(** ** [ListAllFolders] *)

Section Folders.
Context {B : Type} (svc : S3API B).

(** C8, as the code has it.  When the first listing call of
    [ListAllFolders] fails, the error is dropped: the function returns the
    folder records of whatever the failed call delivered (for the SDK, none),
    makes no further call, and has no error result to give. *)
Theorem ListAllFolders_swallows_first_error
    (fuel : nat) (folderPath : string) (st : State B) (e : error) :
  let path := normalizeFolderPath folderPath in
  let answer := svc_ListObjectsV2 svc (bucket st) (flatInput path 1000 None) in
  answer.1.2 = Some e ->
  ListAllFolders svc fuel folderPath st
  = (Ok (foldersFirst path (s3.Contents answer.1.1) []),
     logged (CallListObjectsV2 (flatInput path 1000 None) (Some e))
       answer.2 st).
Proof.
  intros path answer Herr. subst answer path.
  unfold ListAllFolders, bind, ListObjectsV2.
  destruct (svc_ListObjectsV2 _ _ _) as [[resp err] b].
  cbn in Herr. subst err. done.
Qed.
End Folders.

Lemma ListAllFolders_swallows_first_error_witness :
  (svc_ListObjectsV2 docs_api (bucket docs_outage)
     (flatInput (normalizeFolderPath "docs") 1000 None)).1.2
  = Some "RequestError"
  /\ (ListAllFolders docs_api 10 "docs" docs_outage).1 = Ok [].
Proof.
  assert (Herr :
    (svc_ListObjectsV2 docs_api (bucket docs_outage)
       (flatInput (normalizeFolderPath "docs") 1000 None)).1.2
    = Some "RequestError").
  { reflexivity. }
  split; [exact Herr|].
  rewrite (ListAllFolders_swallows_first_error docs_api 10 "docs"
             docs_outage "RequestError" Herr).
  reflexivity.
Defined.

(** C8, as the specification words it, fails while the store refuses
    requests: [ListAllFolders] returns the empty list. *)
Lemma list_error_propagated_fails :
  ~ list_error_propagated docs_api 10 "docs" docs_outage.
Proof.
  intros Hclaim. specialize (Hclaim "RequestError" eq_refl).
  vm_compute in Hclaim. discriminate Hclaim.
Qed.

(** ** [DeleteFolder]: listing comes before deleting *)

Section ListsThenDeletes.
Context {B : Type} (svc : S3API B).

Lemma deleteFolderPages_calls fuel folderPath :
  forall allObjects nextToken (st : State B),
  exists lists,
    calls (deleteFolderPages svc fuel folderPath allObjects nextToken st).2
    = calls st ++ lists
    /\ Forall (fun call => is_list call = true) lists.
Proof.
  induction fuel as [|fuel IH]; intros allObjects nextToken st.
  - exists []. rewrite app_nil_r. by destruct nextToken.
  - destruct nextToken as [token|].
    { cbn [deleteFolderPages]. unfold bind, ListObjectsV2.
      destruct (svc_ListObjectsV2 _ _ _) as [[curr err] b].
      set (call := CallListObjectsV2 _ _).
      destruct err as [e|].
      - exists [call]. by repeat constructor.
      - destruct (collectPage _ _ _ _ _) as [allObjects' nextToken'].
        destruct (IH allObjects' nextToken' (logged call b st))
          as (lists & Hc & Hl).
        exists (call :: lists). rewrite Hc. cbn. rewrite <- app_assoc.
        split; [done|]. by constructor. }
    exists []. by rewrite app_nil_r.
Qed.

Lemma collectFolder_calls fuel folderPath (st : State B) :
  exists lists,
    calls (collectFolder svc fuel folderPath st).2 = calls st ++ lists
    /\ Forall (fun call => is_list call = true) lists.
Proof.
  unfold collectFolder, bind, ListObjectsV2.
  destruct (svc_ListObjectsV2 _ _ _) as [[resp err] b].
  set (call := CallListObjectsV2 _ _).
  destruct err as [e|].
  - exists [call]. by repeat constructor.
  - destruct (deleteFolderPages_calls fuel folderPath
                (collectFirst folderPath (s3.Contents resp) [])
                (s3.NextContinuationToken resp) (logged call b st))
      as (lists & Hc & Hl).
    exists (call :: lists). rewrite Hc. cbn. rewrite <- app_assoc.
    split; [done|]. by constructor.
Qed.

(** The backend calls of one [DeleteFolder] are its listing calls followed by
    its delete calls: no listing call is made once a delete has been
    issued. *)
Lemma DeleteFolder_lists_then_deletes fuel folderPath (st : State B) :
  exists lists deletes,
    calls (DeleteFolder svc fuel folderPath st).2
    = calls st ++ lists ++ deletes
    /\ Forall (fun call => is_list call = true) lists
    /\ Forall (fun call => is_delete call = true) deletes.
Proof.
  unfold DeleteFolder. unfold bind at 1.
  destruct (collectFolder_calls fuel (normalizeFolderPath folderPath) st)
    as (lists & Hc & Hl).
  destruct (collectFolder svc fuel (normalizeFolderPath folderPath) st)
    as [[objs| e | |] st1]; cbn [snd] in Hc.
  2-4: exists lists, []; rewrite app_nil_r; by split_and!.
  rewrite deleteObjects_then_marker.
  destruct (deleteKeys_run svc
              (map Name objs ++ [normalizeFolderPath folderPath]) st1)
    as (done & failed & Hd & _).
  exists lists, (map (fun key => CallDeleteObject key None) done
                 ++ failedCall failed).
  rewrite Hd, Hc, <- app_assoc. split_and!; try done.
  apply Forall_app. split.
  - apply Forall_forall. intros call Hin.
    by apply list_elem_of_fmap in Hin as (key & -> & _).
  - destruct failed as [[key e]|]; by repeat constructor.
Qed.
End ListsThenDeletes.

(** ** [ListAllFiles] *)

(** C1, on the code.  The root holds eleven files and the folder "z/" with one
    file in it.  The first page of the root (eleven entries) has the files,
    the second has the folder "z/".  [ListAllFiles] appends the records of the
    second page and descends only into the folders of the first: it returns
    the eleven files and the folder record "z/", and not "z/x", which
    [ListFiles] lists for "z/". *)
Theorem ListAllFiles_skips_folders_of_later_pages (fuel : nat) :
  let start := Store.start root_bucket in
  let run := ListAllFiles docs_api (S fuel) "" start in
  returned run.1 = true
  /\ listed run.1
     = ["a01"; "a02"; "a03"; "a04"; "a05"; "a06"; "a07"; "a08"; "a09"; "a10";
        "a11"; "z/"]
  /\ listed (ListFiles docs_api "z/" "" 10 false 0 start).1 = ["z/x"]
  /\ "z/x" ∉ listed run.1.
Proof.
  destruct fuel; vm_compute; split_and!; try done.
  all: intros Hin; repeat (apply elem_of_cons in Hin as [Heq | Hin];
                           [discriminate Heq|]).
  all: by apply elem_of_nil in Hin.
Qed.

(** * Further properties of the code *)

(** ** Folder paths and object keys *)

Lemma append_assoc (a b c : string) :
  String.append (String.append a b) c = String.append a (String.append b c).
Proof.
  induction a as [|ch a IH]; [done|].
  change (String ch (String.append (String.append a b) c)
          = String ch (String.append a (String.append b c))).
  by rewrite IH.
Qed.

Lemma substring_past (a b : string) (n : nat) :
  substring (String.length a) n (String.append a b) = substring 0 n b.
Proof. induction a as [|ch a IH]; [done | exact IH]. Qed.

Lemma substring_one (s : string) : forall n,
  substring n 1 s
  = match String.get n s with Some ch => String ch "" | None => "" end.
Proof.
  induction s as [|ch s IH]; intros [|n]; simpl; try done.
  by destruct s.
Qed.

Lemma HasSuffix_slash_append (s : string) :
  strings.HasSuffix (String.append s "/") "/" = true.
Proof.
  unfold strings.HasSuffix. rewrite length_append. simpl String.length.
  replace (String.length s + 1 - 1) with (String.length s) by lia.
  rewrite substring_past.
  replace (1 <=? String.length s + 1)%nat with true
    by (symmetry; apply Nat.leb_le; lia).
  done.
Qed.

(** The handlers look at the last byte, the S3 layer calls
    [strings.HasSuffix]: the two tests agree. *)
Lemma lastByteIsSlash_HasSuffix (s : string) :
  lastByteIsSlash s = strings.HasSuffix s "/".
Proof.
  unfold lastByteIsSlash, strings.HasSuffix. simpl String.length.
  rewrite substring_one.
  destruct s as [|ch s]; [done|].
  replace (1 <=? String.length (String ch s))%nat with true
    by (symmetry; apply Nat.leb_le; simpl; lia).
  destruct (String.get _ _) as [c|]; [|done].
  cbn [andb String.eqb]. by destruct (Ascii.eqb c "/").
Qed.

Lemma normalizeFolderPath_fixed (folderPath : string) :
  normalizeFolderPath (normalizeFolderPath folderPath)
  = normalizeFolderPath folderPath.
Proof.
  unfold normalizeFolderPath.
  destruct (String.eqb_spec folderPath "") as [-> | Hne]; [done|].
  cbn [negb andb].
  destruct (strings.HasSuffix folderPath "/") eqn:Hs; cbn [negb].
  - by rewrite Hs, andb_false_r.
  - by rewrite HasSuffix_slash_append, andb_false_r.
Qed.

(** X1.  Normalizing a folder path is idempotent; it leaves the empty path
    (the root) empty and gives every other path exactly one more trailing
    slash when it had none, so a normalized path is empty or ends in "/". *)
Theorem normalizeFolderPath_idempotent (folderPath : string) :
  normalizeFolderPath (normalizeFolderPath folderPath)
  = normalizeFolderPath folderPath
  /\ (normalizeFolderPath folderPath = "" <-> folderPath = "")
  /\ (folderPath <> "" ->
      strings.HasSuffix (normalizeFolderPath folderPath) "/" = true).
Proof.
  unfold normalizeFolderPath.
  destruct (String.eqb_spec folderPath "") as [-> | Hne]; [done|].
  cbn [negb andb].
  destruct (strings.HasSuffix folderPath "/") eqn:Hs; cbn [negb].
  - rewrite Hs. rewrite andb_false_r. split_and!; try done.
  - rewrite HasSuffix_slash_append, andb_false_r. split_and!; try done.
    all: try (split; [|done]; by destruct folderPath).
    all: try (intros _; apply HasSuffix_slash_append).
Qed.

(** X2.  The key [uploadFileHandler] uploads a file under is the file name
    appended to the folder path as the S3 layer normalizes it: the handler's
    own slash handling and [normalizeFolderPath] agree, and with no folder
    path the key is the bare file name. *)
Theorem uploadObjectKey_normalized (folderPath filename : string) :
  uploadObjectKey folderPath filename
  = String.append (normalizeFolderPath folderPath) filename.
Proof.
  unfold uploadObjectKey, normalizeFolderPath.
  rewrite lastByteIsSlash_HasSuffix.
  destruct (String.eqb_spec folderPath "") as [-> | Hne]; [done|].
  cbn [negb andb].
  destruct (strings.HasSuffix folderPath "/"); cbn [negb]; [done|].
  by rewrite append_assoc.
Qed.

(** ** [GenerateDownloadLink] and the cache *)

Section CacheFacts.
Context {B : Type} (svc : S3API B).

(** X3.  A presign that fails stores nothing: when [GenerateDownloadLink]
    returns an error, every cache is as it was, and the one backend call made
    is the presign that failed with that error. *)
Theorem GenerateDownloadLink_failure_stores_nothing
    (key : string) (c : nat) (st : State B) (e : error) :
  (GenerateDownloadLink svc key c st).1 = Err e ->
  heap (GenerateDownloadLink svc key c st).2 = heap st
  /\ calls (GenerateDownloadLink svc key c st).2
     = calls st ++ [CallPresign key ttl (Some e)].
Proof.
  intros Herr.
  destruct (GenerateDownloadLink_run svc key c st)
    as [Hnil | m u Hm Hget | m u0 u e' Hm Hget Hp | m u0 u Hm Hget Hp];
    cbn in Herr; by simplify_eq.
Qed.

(** X4.  [GenerateDownloadLink] for a key touches that key of that cache
    only: however the call ends, the other caches are as they were, no cache
    is allocated or lost, and in the cache it was given every other key has
    the entry it had. *)
Theorem GenerateDownloadLink_frame (key : string) (c : nat) (st : State B) :
  let after := (GenerateDownloadLink svc key c st).2 in
  List.length (heap after) = List.length (heap st)
  /\ (forall c', c' <> c -> heap after !! c' = heap st !! c')
  /\ (forall m m' key',
        heap st !! c = Some m -> heap after !! c = Some m' ->
        key' <> key -> m' !! key' = m !! key').
Proof.
  destruct (GenerateDownloadLink_run svc key c st)
    as [Hnil | m u Hm Hget | m u0 u e' Hm Hget Hp | m u0 u Hm Hget Hp];
    cbn; split_and!; try done.
  1-3: intros m1 m2 key' H1 H2 _; congruence.
  - by rewrite length_insert.
  - intros c' Hc'. by apply list_lookup_insert_ne.
  - intros m1 m2 key' H1 H2 Hkey.
    assert (Hlt : c < List.length (heap st)) by by eapply lookup_lt_Some.
    rewrite list_lookup_insert_eq in H2 by done.
    simplify_eq. unfold cache.Set'. by rewrite lookup_insert_ne.
Qed.

(** A successful lookup leaves the key valid with the URL it returned, and
    keeps every entry that was valid. *)
Lemma GenerateDownloadLink_valid key c (st : State B) m u :
  heap st !! c = Some m ->
  (GenerateDownloadLink svc key c st).1 = Ok u ->
  exists m' new,
    heap (GenerateDownloadLink svc key c st).2 !! c = Some m'
    /\ clock (GenerateDownloadLink svc key c st).2 = clock st
    /\ calls (GenerateDownloadLink svc key c st).2 = calls st ++ new
    /\ List.length new <= 1
    /\ cache.Get (clock st) m' key = (u, true)
    /\ (forall k v, cache.Get (clock st) m k = (v, true) ->
                    cache.Get (clock st) m' k = (v, true)).
Proof.
  intros Hm Hok.
  destruct (GenerateDownloadLink_run svc key c st)
    as [Hnil | m1 u1 Hm1 Hget | m1 u0 u1 e' Hm1 Hget Hp | m1 u0 u1 Hm1 Hget Hp];
    cbn in Hok; simplify_eq.
  - exists m, []. rewrite app_nil_r. cbn. split_and!; try done. lia.
  - exists (cache.Set' m key u (time.Add (clock st) ttl)),
           [CallPresign key ttl None].
    cbn. split_and!; try done.
    + apply list_lookup_insert_eq. by eapply lookup_lt_Some.
    + unfold cache.Get, cache.Set'. rewrite lookup_insert_eq. cbn.
      destruct (Z.ltb_spec (clock st) (time.Add (clock st) ttl)) as [|Hge];
        [done|].
      unfold time.Add, ttl, time.Minute, time.Second in Hge. lia.
    + intros k v Hk. unfold cache.Get, cache.Set'.
      destruct (decide (k = key)) as [-> | Hne].
      * rewrite Hget in Hk. by simplify_eq.
      * by rewrite lookup_insert_ne.
Qed.

Lemma appendContents_cached folderPath c contents :
  forall fileCount objects (st : State B) m fc' objs',
  heap st !! c = Some m ->
  (appendContents svc folderPath c contents fileCount objects st).1
  = Ok (fc', objs') ->
  exists m' recs new,
    heap (appendContents svc folderPath c contents fileCount objects st).2
      !! c = Some m'
    /\ objs' = objects ++ recs
    /\ calls (appendContents svc folderPath c contents fileCount objects st).2
       = calls st ++ new
    /\ List.length new <= List.length recs
    /\ (forall d, d ∈ recs ->
          cache.Get (clock st) m' (Name d) = (DownloadLink d, true))
    /\ (forall k v, cache.Get (clock st) m k = (v, true) ->
                    cache.Get (clock st) m' k = (v, true)).
Proof.
  induction contents as [|o rest IH];
    intros fileCount objects st m fc' objs' Hm Hok; cbn in *.
  - simplify_eq. exists m, [], []. rewrite !app_nil_r.
    split_and!; try done. intros d Hd. by apply elem_of_nil in Hd.
  - destruct (String.eqb (s3.Key o) folderPath); [by eapply IH|].
    unfold bind in *.
    destruct (GenerateDownloadLink_valid (s3.Key o) c st m) with
      (u := match (GenerateDownloadLink svc (s3.Key o) c st).1 with
            | Ok u => u | _ => "" end)
      as (m1 & new1 & Hm1 & Hk1 & Hc1 & Hn1 & Hu1 & Hkeep1); [done| |].
    { by destruct (GenerateDownloadLink svc (s3.Key o) c st) as [[u| | |] ?]. }
    destruct (GenerateDownloadLink svc (s3.Key o) c st) as [[u| | |] st1];
      cbn in *; try done.
    rewrite alter_last in Hok |- *.
    destruct (IH _ _ st1 m1 fc' objs' Hm1 Hok)
      as (m' & recs & new & Hm' & -> & Hc & Hn & Hrecs & Hkeep).
    rewrite Hk1 in Hrecs, Hkeep.
    exists m', (withDownloadLink u (detailsOf o) :: recs), (new1 ++ new).
    rewrite <- app_assoc. cbn. split_and!; try done.
    + by rewrite Hc, Hc1, <- app_assoc.
    + rewrite length_app. lia.
    + intros d Hd. apply elem_of_cons in Hd as [-> | Hd]; [|by apply Hrecs].
      cbn. by apply Hkeep.
    + intros k v Hk. by apply Hkeep, Hkeep1.
Qed.

(** X5.  In folders-only mode [ListFiles] makes the listing call and nothing
    else: no presign, and the cache pointer is not even read.  Its page has
    one folder record, without a link, per common prefix, and counts no
    file; a listing error is its result. *)
Theorem ListFiles_folders_only
    (folderPath tok : string) (pageSize : Z) (c : nat) (st : State B) :
  let run := ListFiles svc folderPath tok pageSize true c st in
  let answer := svc_ListObjectsV2 svc (bucket st)
                  (pageInput folderPath tok pageSize) in
  run.2 = logged (CallListObjectsV2 (pageInput folderPath tok pageSize)
                    answer.1.2) answer.2 st
  /\ match answer.1.2 with
     | Some e => run.1 = Err e
     | None =>
         exists page,
           run.1 = Ok page
           /\ FilesCount page = 0%Z
           /\ map Name (Files page) = s3.CommonPrefixes answer.1.1
           /\ Forall (fun d => IsFolder d = true /\ DownloadLink d = "")
                (Files page)
     end.
Proof.
  unfold ListFiles, pageInput, bind, ListObjectsV2.
  destruct (svc_ListObjectsV2 _ _ _) as [[resp err] b]. cbn [fst snd].
  rewrite appendCommonPrefixes_run.
  destruct err as [e|]; [done|]. cbn.
  split; [done|]. eexists. split; [done|]. cbn.
  rewrite map_map. cbn. rewrite map_id. split_and!; try done.
  apply Forall_forall. intros d Hd.
  by apply list_elem_of_fmap in Hd as (p & -> & _).
Qed.

(** X6.  The links of a page are the cached ones: after a successful
    [ListFiles], the cache it was given answers, at that instant, every file
    record's name with the link the record carries.  The call presigns at
    most once per file record. *)
Theorem ListFiles_links_cached
    (folderPath tok : string) (pageSize : Z) (isFolder : bool) (c : nat)
    (st : State B) (page : ListFilesResponse) :
  is_Some (heap st !! c) ->
  (ListFiles svc folderPath tok pageSize isFolder c st).1 = Ok page ->
  let after := (ListFiles svc folderPath tok pageSize isFolder c st).2 in
  exists m' folders files,
    heap after !! c = Some m'
    /\ Files page = folders ++ files
    /\ map Name folders
       = s3.CommonPrefixes (pageAnswer svc folderPath tok pageSize st).1
    /\ (forall d, d ∈ files ->
          cache.Get (clock st) m' (Name d) = (DownloadLink d, true))
    /\ presigns after <= presigns st + List.length files.
Proof.
  intros [m Hm]. unfold ListFiles, pageAnswer, pageInput, bind, ListObjectsV2.
  destruct (svc_ListObjectsV2 _ _ _) as [[resp err] b]. cbn [fst snd].
  rewrite appendCommonPrefixes_run. cbn [clock logged].
  destruct err as [e|]; [done|].
  set (folders := map (folderRecord (clock st)) (s3.CommonPrefixes resp)).
  assert (Hnames : map Name folders = s3.CommonPrefixes resp).
  { subst folders. rewrite map_map. cbn. by rewrite map_id. }
  destruct isFolder; cbn [negb].
  - cbn. intros [= <-]. exists m, folders, []. cbn.
    rewrite app_nil_r. split_and!; try done.
    + intros d Hd. by apply elem_of_nil in Hd.
    + unfold presigns. cbn. rewrite List.filter_app, length_app. cbn. lia.
  - set (st1 := logged _ _ _).
    destruct (appendContents _ _ _ _ _ _ _)
      as [[[fc objs]| | |] st2] eqn:Hrun; cbn; try done.
    intros [= <-].
    destruct (appendContents_cached (normalizeFolderPath folderPath) c
                (s3.Contents resp) 0%Z ([] ++ folders) st1 m fc objs Hm)
      as (m' & recs & new & Hm' & -> & Hc & Hn & Hrecs & _).
    { by rewrite Hrun. }
    rewrite Hrun in Hm', Hc. cbn in Hm', Hc.
    exists m', folders, recs. cbn. split_and!; try done.
    unfold presigns. rewrite Hc. subst st1. cbn.
    rewrite !List.filter_app, !length_app. cbn.
    pose proof (List.filter_length_le is_presign new). lia.
Qed.
End CacheFacts.

Lemma GenerateDownloadLink_failure_stores_nothing_witness :
  (GenerateDownloadLink (Store.api Store.unsigned) "docs/a.txt" 0 docs_start).1
  = Err "SerializationError"
  /\ heap (GenerateDownloadLink (Store.api Store.unsigned) "docs/a.txt" 0
             docs_start).2
     = heap docs_start.
Proof.
  assert (Herr :
    (GenerateDownloadLink (Store.api Store.unsigned) "docs/a.txt" 0
       docs_start).1 = Err "SerializationError").
  { vm_compute. reflexivity. }
  split; [exact Herr|].
  exact (proj1 (GenerateDownloadLink_failure_stores_nothing
                  (Store.api Store.unsigned) "docs/a.txt" 0 docs_start
                  "SerializationError" Herr)).
Defined.

Lemma ListFiles_links_cached_witness :
  is_Some (heap docs_start !! 0)
  /\ (ListFiles docs_api "docs" "" 10 false 0 docs_start).1 = Ok docs_page
  /\ exists m' folders files,
       heap (ListFiles docs_api "docs" "" 10 false 0 docs_start).2 !! 0
       = Some m'
       /\ Files docs_page = folders ++ files
       /\ map Name folders
          = s3.CommonPrefixes (pageAnswer docs_api "docs" "" 10 docs_start).1
       /\ (forall d, d ∈ files ->
             cache.Get (clock docs_start) m' (Name d) = (DownloadLink d, true))
       /\ presigns (ListFiles docs_api "docs" "" 10 false 0 docs_start).2
          <= presigns docs_start + List.length files.
Proof.
  assert (Hc : is_Some (heap docs_start !! 0)).
  { exists ∅. reflexivity. }
  assert (Hrun : (ListFiles docs_api "docs" "" 10 false 0 docs_start).1
                 = Ok docs_page).
  { vm_compute. reflexivity. }
  split; [exact Hc|]. split; [exact Hrun|].
  exact (ListFiles_links_cached docs_api "docs" "" 10 false 0 docs_start
           docs_page Hc Hrun).
Defined.

(** ** [DeleteFolder] and [ListAllFolders]: what a page contributes *)

Lemma kept_nil_app folderPath (o : s3.Object) rest :
  String.eqb (s3.Key o) folderPath = false ->
  kept folderPath (o :: rest) = o :: kept folderPath rest.
Proof. intros H. unfold kept. cbn. by rewrite H. Qed.

Lemma kept_skip folderPath (o : s3.Object) rest :
  String.eqb (s3.Key o) folderPath = true ->
  kept folderPath (o :: rest) = kept folderPath rest.
Proof. intros H. unfold kept. cbn. by rewrite H. Qed.

Lemma collectFirst_kept folderPath contents : forall allObjects,
  collectFirst folderPath contents allObjects
  = allObjects ++ map detailsOf (kept folderPath contents).
Proof.
  induction contents as [|o rest IH]; intros allObjects; cbn [collectFirst].
  - cbn. by rewrite app_nil_r.
  - destruct (String.eqb (s3.Key o) folderPath) eqn:Hkey.
    + by rewrite kept_skip.
    + rewrite kept_nil_app by done. rewrite IH. cbn.
      by rewrite <- app_assoc.
Qed.

Lemma collectPage_closed
    (folderPath : string) (next : option string) (contents : list s3.Object)
    (allObjects : list ObjectDetails) (nextToken : option string) :
  collectPage folderPath next contents allObjects nextToken
  = (allObjects
       ++ map detailsOf
            (match next with
             | Some _ => kept folderPath contents
             | None => take 1 (kept folderPath contents)
             end),
     match kept folderPath contents with
     | [] => nextToken
     | _ :: _ => next
     end).
Proof.
  revert allObjects nextToken.
  induction contents as [|o rest IH]; intros allObjects nextToken;
    cbn [collectPage].
  - destruct next; cbn; by rewrite app_nil_r.
  - destruct (String.eqb (s3.Key o) folderPath) eqn:Hkey.
    + rewrite kept_skip by done. apply IH.
    + rewrite kept_nil_app by done. destruct next as [t|]; [|done].
      rewrite IH. cbn. rewrite <- app_assoc. cbn.
      by destruct (kept folderPath rest).
Qed.

(** X7.  What the pagination loop of [DeleteFolder] takes from one page.
    From a page that comes with a continuation token it collects every entry
    but the folder's own, in order; from a page without one it collects only
    the first such entry.  The token of the loop becomes the page's token as
    soon as one entry is collected, and stays what it was when none is. *)
Theorem collectPage_takes
    (folderPath : string) (next : option string) (contents : list s3.Object)
    (allObjects : list ObjectDetails) (nextToken : option string) :
  collectPage folderPath next contents allObjects nextToken
  = (allObjects
       ++ map detailsOf
            (match next with
             | Some _ => kept folderPath contents
             | None => take 1 (kept folderPath contents)
             end),
     match kept folderPath contents with
     | [] => nextToken
     | _ :: _ => next
     end).
Proof.
  revert allObjects nextToken.
  induction contents as [|o rest IH]; intros allObjects nextToken;
    cbn [collectPage].
  - destruct next; cbn; by rewrite app_nil_r.
  - destruct (String.eqb (s3.Key o) folderPath) eqn:Hkey.
    + rewrite kept_skip by done. apply IH.
    + rewrite kept_nil_app by done. destruct next as [t|]; [|done].
      rewrite IH. cbn. rewrite <- app_assoc. cbn.
      by destruct (kept folderPath rest).
Qed.

Section DeleteMore.
Context {B : Type} (svc : S3API B).

(** X8.  When the first listing of [DeleteFolder] succeeds and carries no
    continuation token, the function needs no fuel and does what its name
    says for that page: it requests the deletion of every listed key but the
    folder's own, in the order listed, and then of the folder path, stopping
    at the first failure. *)
Theorem DeleteFolder_single_page
    (fuel : nat) (folderPath : string) (st : State B)
    (resp : s3.ListObjectsV2Output) (b : B) :
  let path := normalizeFolderPath folderPath in
  svc_ListObjectsV2 svc (bucket st) (flatInput path 2 None)
  = ((resp, None), b) ->
  s3.NextContinuationToken resp = None ->
  DeleteFolder svc fuel folderPath st
  = deleteKeys svc (map s3.Key (kept path (s3.Contents resp)) ++ [path])
      (logged (CallListObjectsV2 (flatInput path 2 None) None) b st).
Proof.
  intros path Hlist Hnext.
  unfold DeleteFolder. fold path.
  assert (Hcollect :
    collectFolder svc fuel path st
    = (Ok (map detailsOf (kept path (s3.Contents resp))),
       logged (CallListObjectsV2 (flatInput path 2 None) None) b st)).
  { unfold collectFolder, bind, ListObjectsV2. rewrite Hlist, Hnext.
    rewrite deleteFolderPages_done, collectFirst_kept. done. }
  unfold bind at 1. rewrite Hcollect.
  rewrite deleteObjects_then_marker. by rewrite map_map.
Qed.

Lemma deleteFolderPages_keeps (P : ObjectDetails -> Prop) folderPath fuel :
  (forall o, String.eqb (s3.Key o) folderPath = false -> P (detailsOf o)) ->
  forall allObjects nextToken (st : State B) objs,
  Forall P allObjects ->
  (deleteFolderPages svc fuel folderPath allObjects nextToken st).1 = Ok objs ->
  Forall P objs.
Proof.
  intros HP. induction fuel as [|fuel IH];
    intros allObjects nextToken st objs Hall Hrun.
  - destruct nextToken; cbn in Hrun; by simplify_eq.
  - destruct nextToken as [t|]; [|cbn in Hrun; by simplify_eq].
    cbn [deleteFolderPages] in Hrun. unfold bind, ListObjectsV2 in Hrun.
    destruct (svc_ListObjectsV2 _ _ _) as [[curr [e|]] b']; [done|].
    rewrite collectPage_closed in Hrun.
    eapply IH; [|exact Hrun].
    apply Forall_app. split; [done|].
    apply Forall_forall. intros d Hd.
    apply list_elem_of_fmap in Hd as (o & -> & Ho). apply HP.
    assert (Hk : o ∈ kept folderPath (s3.Contents curr)).
    { destruct (s3.NextContinuationToken curr); [done|].
      apply list_elem_of_lookup in Ho as [i Hi].
      apply lookup_take_Some in Hi as [Hi _].
      by eapply list_elem_of_lookup_2. }
    unfold kept in Hk. apply list_elem_of_In, filter_In in Hk as [_ Hk].
    by apply negb_true_iff in Hk.
Qed.

(** X9.  The folder's own key is never among the keys the listing of
    [DeleteFolder] collects, whatever page it is on; the delete loop therefore
    never requests the folder path, which is left to the final call. *)
Theorem DeleteFolder_never_collects_marker
    (fuel : nat) (folderPath : string) (st : State B)
    (objs : list ObjectDetails) :
  (collectFolder svc fuel folderPath st).1 = Ok objs ->
  Forall (fun d => Name d <> folderPath) objs.
Proof.
  unfold collectFolder, bind, ListObjectsV2.
  destruct (svc_ListObjectsV2 _ _ _) as [[resp [e|]] b]; [done|].
  assert (HP : forall o, String.eqb (s3.Key o) folderPath = false ->
                         Name (detailsOf o) <> folderPath).
  { intros o Ho. by apply String.eqb_neq. }
  apply (deleteFolderPages_keeps _ folderPath fuel HP).
  rewrite collectFirst_kept. cbn.
  apply Forall_forall. intros d Hd.
  apply list_elem_of_fmap in Hd as (o & -> & Ho). apply HP.
  unfold kept in Ho. apply list_elem_of_In, filter_In in Ho as [_ Ho].
  by apply negb_true_iff in Ho.
Qed.
End DeleteMore.

Lemma DeleteFolder_single_page_witness :
  svc_ListObjectsV2 docs_api (bucket (Store.start small_bucket))
    (flatInput (normalizeFolderPath "docs") 2 None)
  = ((Store.listObjectsV2 (bucket (Store.start small_bucket))
        (flatInput "docs/" 2 None)).1.1, None,
     bucket (Store.start small_bucket))
  /\ s3.NextContinuationToken
       (Store.listObjectsV2 (bucket (Store.start small_bucket))
          (flatInput "docs/" 2 None)).1.1 = None
  /\ (DeleteFolder docs_api 0 "docs" (Store.start small_bucket)).1 = Ok tt
  /\ Store.keys (DeleteFolder docs_api 0 "docs" (Store.start small_bucket)).2
     = [].
Proof.
  assert (Hlist :
    svc_ListObjectsV2 docs_api (bucket (Store.start small_bucket))
      (flatInput (normalizeFolderPath "docs") 2 None)
    = ((Store.listObjectsV2 (bucket (Store.start small_bucket))
          (flatInput "docs/" 2 None)).1.1, None,
       bucket (Store.start small_bucket))).
  { vm_compute. reflexivity. }
  assert (Hnext :
    s3.NextContinuationToken
      (Store.listObjectsV2 (bucket (Store.start small_bucket))
         (flatInput "docs/" 2 None)).1.1 = None).
  { vm_compute. reflexivity. }
  split; [exact Hlist|]. split; [exact Hnext|].
  rewrite (DeleteFolder_single_page docs_api 0 "docs"
             (Store.start small_bucket) _ _ Hlist Hnext).
  split; vm_compute; reflexivity.
Defined.

Lemma DeleteFolder_never_collects_marker_witness :
  (collectFolder docs_api 10 "docs/" docs_start).1
  = Ok [docs_a_txt; docs_sub]
  /\ Forall (fun d => Name d <> "docs/") [docs_a_txt; docs_sub].
Proof.
  assert (Hrun : (collectFolder docs_api 10 "docs/" docs_start).1
                 = Ok [docs_a_txt; docs_sub]).
  { vm_compute. reflexivity. }
  split; [exact Hrun|].
  exact (DeleteFolder_never_collects_marker docs_api 10 "docs/" docs_start
           _ Hrun).
Defined.

Section CleanListing.
Context {B : Type} (svc : S3API B).

Lemma deleteFolderPages_errors fuel folderPath :
  forall allObjects nextToken (st : State B),
  exists lists,
    calls (deleteFolderPages svc fuel folderPath allObjects nextToken st).2
    = calls st ++ lists
    /\ Forall (fun call => is_list call = true) lists
    /\ (forall call e, call ∈ lists -> call_error call = Some e ->
          (deleteFolderPages svc fuel folderPath allObjects nextToken st).1
          = Err e).
Proof.
  induction fuel as [|fuel IH]; intros allObjects nextToken st.
  - exists []. rewrite app_nil_r. split_and!; [by destruct nextToken|done|].
    intros call e Hin. by apply elem_of_nil in Hin.
  - destruct nextToken as [token|].
    2:{ exists []. rewrite app_nil_r. split_and!; try done.
        intros call e Hin. by apply elem_of_nil in Hin. }
    cbn [deleteFolderPages]. unfold bind, ListObjectsV2.
    destruct (svc_ListObjectsV2 _ _ _) as [[curr err] b].
    set (call := CallListObjectsV2 _ _).
    destruct err as [e|].
    + exists [call]. cbn. split_and!; [done|by repeat constructor|].
      intros call' e' Hin Herr. apply list_elem_of_singleton in Hin.
      subst call'. cbn in Herr. congruence.
    + destruct (collectPage _ _ _ _ _) as [allObjects' nextToken'].
      destruct (IH allObjects' nextToken' (logged call b st))
        as (lists & Hc & Hl & Hs).
      exists (call :: lists). rewrite Hc. cbn. rewrite <- app_assoc.
      split_and!; [done|by constructor|].
      intros call' e' Hin Herr. apply elem_of_cons in Hin as [-> | Hin].
      * by cbn in Herr.
      * by apply (Hs call').
Qed.

Lemma collectFolder_errors fuel path (st : State B) :
  exists lists,
    calls (collectFolder svc fuel path st).2 = calls st ++ lists
    /\ Forall (fun call => is_list call = true) lists
    /\ (forall call e, call ∈ lists -> call_error call = Some e ->
          (collectFolder svc fuel path st).1 = Err e).
Proof.
  unfold collectFolder, bind, ListObjectsV2.
  destruct (svc_ListObjectsV2 _ _ _) as [[resp err] b].
  set (call := CallListObjectsV2 _ _).
  destruct err as [e|].
  - exists [call]. cbn. split_and!; [done|by repeat constructor|].
    intros call' e' Hin Herr. apply list_elem_of_singleton in Hin.
    subst call'. cbn in Herr. congruence.
  - destruct (deleteFolderPages_errors fuel path
                (collectFirst path (s3.Contents resp) [])
                (s3.NextContinuationToken resp) (logged call b st))
      as (lists & Hc & Hl & Hs).
    exists (call :: lists). rewrite Hc. cbn. rewrite <- app_assoc.
    split_and!; [done|by constructor|].
    intros call' e' Hin Herr. apply elem_of_cons in Hin as [-> | Hin].
    + by cbn in Herr.
    + by apply (Hs call').
Qed.

Lemma DeleteFolder_phases fuel folderPath (st : State B) :
  DeleteFolder svc fuel folderPath st
  = match collectFolder svc fuel (normalizeFolderPath folderPath) st with
    | (Ok objs, st1) =>
        deleteKeys svc (map Name objs ++ [normalizeFolderPath folderPath]) st1
    | (Err e, st1) => (Err e, st1)
    | (Panic, st1) => (Panic, st1)
    | (OutOfFuel, st1) => (OutOfFuel, st1)
    end.
Proof.
  unfold DeleteFolder. unfold bind at 1.
  destruct (collectFolder _ _ _ _) as [[objs| e | |] st1]; try done.
  apply deleteObjects_then_marker.
Qed.

End CleanListing.

(** ** [ListAllFolders] *)

Lemma foldersFirst_filter folderPath contents : forall allObjects,
  foldersFirst folderPath contents allObjects
  = allObjects
    ++ map detailsOf (List.filter zeroSize (kept folderPath contents)).
Proof.
  induction contents as [|o rest IH]; intros allObjects; cbn [foldersFirst].
  - cbn. by rewrite app_nil_r.
  - destruct (String.eqb (s3.Key o) folderPath) eqn:Hkey.
    + by rewrite kept_skip.
    + rewrite kept_nil_app by done. cbn [List.filter]. unfold zeroSize at 1.
      destruct (s3.Size o =? 0)%Z; rewrite IH; [|done].
      cbn. by rewrite <- app_assoc.
Qed.

Lemma foldersPage_takes folderPath next contents :
  forall allObjects nextToken,
  foldersPage folderPath next contents allObjects nextToken
  = (allObjects
       ++ map detailsOf
            (List.filter zeroSize
               (match next with
                | Some _ => kept folderPath contents
                | None => take 1 (kept folderPath contents)
                end)),
     match kept folderPath contents with
     | [] => nextToken
     | _ :: _ => next
     end).
Proof.
  induction contents as [|o rest IH]; intros allObjects nextToken;
    cbn [foldersPage].
  - destruct next; cbn; by rewrite app_nil_r.
  - destruct (String.eqb (s3.Key o) folderPath) eqn:Hkey.
    + rewrite kept_skip by done. apply IH.
    + rewrite kept_nil_app by done. destruct next as [t|].
      * rewrite IH. cbn [List.filter]. unfold zeroSize at 2.
        destruct (s3.Size o =? 0)%Z; cbn; rewrite <- ?app_assoc; cbn;
          by destruct (kept folderPath rest).
      * cbn. unfold zeroSize.
        destruct (s3.Size o =? 0)%Z; cbn; by rewrite ?app_nil_r.
Qed.

Section FoldersMore.
Context {B : Type} (svc : S3API B).

(** X11.  When the first page of [ListAllFolders] carries no continuation
    token, the function returns, with any fuel and whether or not the call
    reported an error, the records of exactly the zero-size entries of that
    page other than the folder's own, in the order listed, after that one
    backend call. *)
Theorem ListAllFolders_single_page
    (fuel : nat) (folderPath : string) (st : State B)
    (resp : s3.ListObjectsV2Output) (err : option error) (b : B) :
  let path := normalizeFolderPath folderPath in
  svc_ListObjectsV2 svc (bucket st) (flatInput path 1000 None)
  = ((resp, err), b) ->
  s3.NextContinuationToken resp = None ->
  ListAllFolders svc fuel folderPath st
  = (Ok (map detailsOf
           (List.filter zeroSize (kept path (s3.Contents resp)))),
     logged (CallListObjectsV2 (flatInput path 1000 None) err) b st).
Proof.
  intros path Hlist Hnext.
  unfold ListAllFolders, bind, ListObjectsV2. fold path.
  rewrite Hlist, Hnext, foldersFirst_filter. cbn.
  destruct err; [done|]. by destruct fuel.
Qed.

Lemma folderEntry_filter path (os : list s3.Object) :
  Forall (folderEntry path)
    (map detailsOf (List.filter zeroSize (kept path os))).
Proof.
  apply Forall_forall. intros d Hd.
  apply list_elem_of_fmap in Hd as (o & -> & Ho).
  apply list_elem_of_In, filter_In in Ho as [Ho Hz].
  apply filter_In in Ho as [_ Hk].
  unfold zeroSize in Hz. apply negb_true_iff, String.eqb_neq in Hk.
  unfold folderEntry, detailsOf. cbn. rewrite Hz.
  split_and!; try done. by apply Z.eqb_eq.
Qed.

Lemma folderEntry_take path (os : list s3.Object) :
  Forall (folderEntry path)
    (map detailsOf (List.filter zeroSize (take 1 (kept path os)))).
Proof.
  destruct (kept path os) as [|o rest] eqn:Hk; [by constructor|].
  cbn. rewrite take_0.
  pose proof (folderEntry_filter path os) as HF. rewrite Hk in HF.
  cbn in HF. destruct (zeroSize o); cbn in *; [|by constructor].
  apply Forall_cons in HF as [Ho _]. constructor; [done | constructor].
Qed.

Lemma listAllFoldersPages_entries path fuel :
  forall allObjects nextToken (st : State B) l,
  Forall (folderEntry path) allObjects ->
  (listAllFoldersPages svc fuel path allObjects nextToken st).1 = Ok l ->
  Forall (folderEntry path) l.
Proof.
  induction fuel as [|fuel IH]; intros allObjects nextToken st l Hall Hrun.
  - destruct nextToken; cbn in Hrun; by simplify_eq.
  - destruct nextToken as [t|]; [|cbn in Hrun; by simplify_eq].
    cbn [listAllFoldersPages] in Hrun. unfold bind, ListObjectsV2 in Hrun.
    destruct (svc_ListObjectsV2 _ _ _) as [[curr err] b']. cbn [fst] in Hrun.
    rewrite foldersPage_takes in Hrun.
    eapply IH; [|exact Hrun].
    apply Forall_app. split; [done|].
    destruct (s3.NextContinuationToken curr);
      [apply folderEntry_filter | apply folderEntry_take].
Qed.

(** X12.  Every record [ListAllFolders] returns is a folder record of a
    zero-size object: flagged as folder, of size 0, without a link, and never
    the folder that was asked for. *)
Theorem ListAllFolders_returns_folder_entries
    (fuel : nat) (folderPath : string) (st : State B)
    (l : list ObjectDetails) :
  (ListAllFolders svc fuel folderPath st).1 = Ok l ->
  Forall (fun d => IsFolder d = true /\ Size d = 0%Z
                   /\ Name d <> normalizeFolderPath folderPath
                   /\ DownloadLink d = "") l.
Proof.
  unfold ListAllFolders, bind, ListObjectsV2.
  destruct (svc_ListObjectsV2 _ _ _) as [[resp err] b].
  rewrite foldersFirst_filter. cbn [app].
  pose proof (folderEntry_filter (normalizeFolderPath folderPath)
                (s3.Contents resp)) as Hfirst.
  destruct err as [e|].
  - cbn. by intros [= <-].
  - by apply listAllFoldersPages_entries.
Qed.

Lemma listAllFoldersPages_spin path token (b : B)
    (curr : s3.ListObjectsV2Output) (err : option error) fuel :
  svc_ListObjectsV2 svc b (flatInput path 1000 (Some token))
  = ((curr, err), b) ->
  kept path (s3.Contents curr) = [] ->
  forall allObjects (st : State B),
  bucket st = b ->
  (listAllFoldersPages svc fuel path allObjects (Some token) st).1
  = OutOfFuel.
Proof.
  intros Hlist Hkept. induction fuel as [|fuel IH];
    intros allObjects st Hb; [done|].
  cbn [listAllFoldersPages]. unfold bind, ListObjectsV2.
  rewrite Hb, Hlist. cbn [fst]. rewrite foldersPage_takes, Hkept.
  by apply IH.
Qed.

(** X13.  [ListAllFolders] does not return when a continuation request keeps
    yielding a page with no entry other than the folder's own — as the empty
    output of a failed call is, the error being dropped: the token of the
    loop is left as it was, the same request is sent again, and the loop runs
    as long as there is fuel. *)
Theorem ListAllFolders_spins
    (folderPath token : string) (st : State B) (fuel : nat) :
  let path := normalizeFolderPath folderPath in
  let first := svc_ListObjectsV2 svc (bucket st) (flatInput path 1000 None) in
  let again :=
    svc_ListObjectsV2 svc first.2 (flatInput path 1000 (Some token)) in
  first.1.2 = None ->
  s3.NextContinuationToken first.1.1 = Some token ->
  again.2 = first.2 ->
  kept path (s3.Contents again.1.1) = [] ->
  (ListAllFolders svc fuel folderPath st).1 = OutOfFuel.
Proof.
  intros path first again Herr Hnext Hsame Hkept.
  unfold ListAllFolders, bind, ListObjectsV2. fold path. fold first.
  destruct first as [[resp0 err0] b0] eqn:Hfirst. cbn in *. subst err0.
  rewrite Hnext.
  destruct again as [[curr err] b1] eqn:Hagain. cbn in *. subst b1.
  by eapply listAllFoldersPages_spin.
Qed.
End FoldersMore.

Lemma ListAllFolders_single_page_witness :
  svc_ListObjectsV2 docs_api (bucket docs_start)
    (flatInput (normalizeFolderPath "docs") 1000 None)
  = ((Store.listObjectsV2 (bucket docs_start)
        (flatInput "docs/" 1000 None)).1.1, None, bucket docs_start)
  /\ s3.NextContinuationToken
       (Store.listObjectsV2 (bucket docs_start)
          (flatInput "docs/" 1000 None)).1.1 = None
  /\ (ListAllFolders docs_api 0 "docs" docs_start).1 = Ok [docs_sub].
Proof.
  assert (Hlist :
    svc_ListObjectsV2 docs_api (bucket docs_start)
      (flatInput (normalizeFolderPath "docs") 1000 None)
    = ((Store.listObjectsV2 (bucket docs_start)
          (flatInput "docs/" 1000 None)).1.1, None, bucket docs_start)).
  { vm_compute. reflexivity. }
  assert (Hnext :
    s3.NextContinuationToken
      (Store.listObjectsV2 (bucket docs_start)
         (flatInput "docs/" 1000 None)).1.1 = None).
  { vm_compute. reflexivity. }
  split; [exact Hlist|]. split; [exact Hnext|].
  rewrite (ListAllFolders_single_page docs_api 0 "docs" docs_start _ _ _
             Hlist Hnext).
  vm_compute. reflexivity.
Defined.

Lemma ListAllFolders_returns_folder_entries_witness :
  (ListAllFolders docs_api 10 "docs" docs_start).1 = Ok [docs_sub]
  /\ Forall (fun d => IsFolder d = true /\ Size d = 0%Z
                      /\ Name d <> normalizeFolderPath "docs"
                      /\ DownloadLink d = "") [docs_sub].
Proof.
  assert (Hrun : (ListAllFolders docs_api 10 "docs" docs_start).1
                 = Ok [docs_sub]).
  { vm_compute. reflexivity. }
  split; [exact Hrun|].
  exact (ListAllFolders_returns_folder_entries docs_api 10 "docs" docs_start
           _ Hrun).
Defined.

Lemma ListAllFolders_spins_witness :
  (svc_ListObjectsV2 expiring_api (bucket (Store.start big_bucket))
     (flatInput (normalizeFolderPath "docs") 1000 None)).1.2 = None
  /\ s3.NextContinuationToken
       (svc_ListObjectsV2 expiring_api (bucket (Store.start big_bucket))
          (flatInput (normalizeFolderPath "docs") 1000 None)).1.1
     = Some "k:docs/k10999"
  /\ (ListAllFolders expiring_api 25 "docs" (Store.start big_bucket)).1
     = OutOfFuel.
Proof.
  assert (Herr :
    (svc_ListObjectsV2 expiring_api (bucket (Store.start big_bucket))
       (flatInput (normalizeFolderPath "docs") 1000 None)).1.2 = None).
  { vm_compute. reflexivity. }
  assert (Hnext :
    s3.NextContinuationToken
      (svc_ListObjectsV2 expiring_api (bucket (Store.start big_bucket))
         (flatInput (normalizeFolderPath "docs") 1000 None)).1.1
    = Some "k:docs/k10999").
  { vm_compute. reflexivity. }
  split; [exact Herr|]. split; [exact Hnext|].
  apply (ListAllFolders_spins expiring_api "docs" "k:docs/k10999"
           (Store.start big_bucket) 25 Herr Hnext).
  - vm_compute. reflexivity.
  - vm_compute. reflexivity.
Defined.

(** ** [ListAllFiles] *)

Section ListAllMore.
Context {B : Type} (svc : S3API B).

Lemma drainPages_done fuel path (allObjects : list ObjectDetails) :
  drainPages svc fuel path "" allObjects = ret allObjects.
Proof. by destruct fuel. Qed.

Lemma forEachFolder_files visit (files : list ObjectDetails) :
  Forall (fun d => IsFolder d = false) files ->
  forall allObjects : list ObjectDetails,
  forEachFolder (B := B) visit files allObjects = ret allObjects.
Proof.
  induction 1 as [|d files Hd _ IH]; intros allObjects; cbn; [done|].
  rewrite Hd. apply IH.
Qed.

(** X14.  When the listing call for the first page of the root fails,
    [ListAllFiles] does not return the error: it reads [NextPageToken]
    through the nil response before it looks at the error, and panics. *)
Theorem ListAllFiles_panics_on_listing_error
    (fuel : nat) (folderPath : string) (st : State B) (e : error) :
  (pageAnswer svc folderPath "" 10 st).2 = Some e ->
  (ListAllFiles svc fuel folderPath st).1 = Panic.
Proof.
  intros Herr. unfold ListAllFiles, bind, newURLCache, try.
  set (st0 := withHeap _ st).
  destruct (ListFiles_calls svc folderPath "" 10 false
              (List.length (heap st)) st0) as (new & _ & _ & Hlist & _).
  destruct (Hlist e Herr) as [Hrun _].
  by destruct (ListFiles svc folderPath "" 10 false _ st0)
    as [[page| e' | |] st1]; cbn in *; simplify_eq.
Qed.

(** X15.  What [ListAllFiles] reports besides the records comes from the
    first page of the root alone: [NextPageToken], [IsLastPage], [FilesCount]
    and [FoldersCount] are that page's, not totals.  The records begin with
    that page's records, and [NoOfRecordsReturned] is the number of all
    records returned. *)
Theorem ListAllFiles_reports_first_page
    (fuel : nat) (folderPath : string) (st : State B)
    (resp : ListFilesResponse) :
  (ListAllFiles svc fuel folderPath st).1 = Ok resp ->
  exists page more,
    (ListFiles svc folderPath "" 10 false (List.length (heap st))
       (withHeap (heap st ++ [∅]) st)).1 = Ok page
    /\ Files resp = Files page ++ more
    /\ NextPageToken resp = NextPageToken page
    /\ IsLastPage resp = IsLastPage page
    /\ FilesCount resp = FilesCount page
    /\ FoldersCount resp = FoldersCount page
    /\ NoOfRecordsReturned resp
       = wrap32 (Z.of_nat (List.length (Files resp))).
Proof.
  unfold ListAllFiles, bind, newURLCache, try.
  set (st0 := withHeap _ st).
  destruct (ListFiles svc folderPath "" 10 false _ st0)
    as [[page| e' | |] st1]; cbn; try done.
  destruct (drainPages svc fuel folderPath (NextPageToken page) [] st1)
    as [[drained| | |] st2]; try done.
  destruct (forEachFolder _ _ _ st2) as [[all| | |] st3]; try done.
  cbn. intros [= <-]. by exists page, all.
Qed.

(** X16.  For a folder whose listing is one page without folder records,
    [ListAllFiles] returns, with any fuel, exactly the page [ListFiles]
    returns for it. *)
Theorem ListAllFiles_flat_folder
    (fuel : nat) (folderPath : string) (st : State B)
    (page : ListFilesResponse) :
  let first := ListFiles svc folderPath "" 10 false (List.length (heap st))
                 (withHeap (heap st ++ [∅]) st) in
  first.1 = Ok page ->
  NextPageToken page = "" ->
  Forall (fun d => IsFolder d = false) (Files page) ->
  ListAllFiles svc fuel folderPath st = (Ok page, first.2).
Proof.
  intros first Hrun Htoken Hfiles. subst first.
  destruct (ListFiles_ok svc _ _ _ _ _ _ _ Hrun)
    as (_ & recs & _ & _ & _ & Hn & _).
  unfold ListAllFiles, bind, newURLCache, try.
  destruct (ListFiles svc folderPath "" 10 false _ _)
    as [[page'| e' | |] st1]; cbn in Hrun; simplify_eq.
  cbn. rewrite Htoken, drainPages_done. cbn.
  rewrite forEachFolder_files by done. cbn.
  rewrite app_nil_r, <- Hn, <- Htoken. by destruct page.
Qed.
End ListAllMore.

Lemma ListAllFiles_panics_on_listing_error_witness :
  (pageAnswer docs_api "docs" "" 10 docs_outage).2 = Some "RequestError"
  /\ (ListAllFiles docs_api 10 "docs" docs_outage).1 = Panic.
Proof.
  assert (Herr : (pageAnswer docs_api "docs" "" 10 docs_outage).2
                 = Some "RequestError").
  { reflexivity. }
  split; [exact Herr|].
  exact (ListAllFiles_panics_on_listing_error docs_api 10 "docs" docs_outage
           "RequestError" Herr).
Defined.

Lemma ListAllFiles_reports_first_page_witness :
  (ListAllFiles docs_api 10 "docs" (Store.start small_bucket)).1
  = Ok small_page
  /\ exists page more,
       (ListFiles docs_api "docs" "" 10 false
          (List.length (heap (Store.start small_bucket)))
          (withHeap (heap (Store.start small_bucket) ++ [∅])
             (Store.start small_bucket))).1 = Ok page
       /\ Files small_page = Files page ++ more
       /\ NextPageToken small_page = NextPageToken page
       /\ IsLastPage small_page = IsLastPage page
       /\ FilesCount small_page = FilesCount page
       /\ FoldersCount small_page = FoldersCount page
       /\ NoOfRecordsReturned small_page
          = wrap32 (Z.of_nat (List.length (Files small_page))).
Proof.
  assert (Hrun :
    (ListAllFiles docs_api 10 "docs" (Store.start small_bucket)).1
    = Ok small_page).
  { vm_compute. reflexivity. }
  split; [exact Hrun|].
  exact (ListAllFiles_reports_first_page docs_api 10 "docs"
           (Store.start small_bucket) small_page Hrun).
Defined.

Lemma ListAllFiles_flat_folder_witness :
  (ListFiles docs_api "docs" "" 10 false
     (List.length (heap (Store.start small_bucket)))
     (withHeap (heap (Store.start small_bucket) ++ [∅])
        (Store.start small_bucket))).1 = Ok small_page
  /\ NextPageToken small_page = ""
  /\ Forall (fun d => IsFolder d = false) (Files small_page)
  /\ (ListAllFiles docs_api 0 "docs" (Store.start small_bucket)).1
     = Ok small_page.
Proof.
  assert (Hrun :
    (ListFiles docs_api "docs" "" 10 false
       (List.length (heap (Store.start small_bucket)))
       (withHeap (heap (Store.start small_bucket) ++ [∅])
          (Store.start small_bucket))).1 = Ok small_page).
  { vm_compute. reflexivity. }
  assert (Htoken : NextPageToken small_page = "").
  { reflexivity. }
  assert (Hfiles : Forall (fun d => IsFolder d = false) (Files small_page)).
  { repeat constructor. }
  split; [exact Hrun|]. split; [exact Htoken|]. split; [exact Hfiles|].
  rewrite (ListAllFiles_flat_folder docs_api 0 "docs"
             (Store.start small_bucket) small_page Hrun Htoken Hfiles).
  reflexivity.
Defined.

(** ** The handlers *)

Section HandlerFacts.
Context {B : Type} (svc : S3API B) (obj : PutAPI B).

(** X17.  [createFolderHandler] with a path and a client makes one put: an
    empty object under the path as the S3 layer normalizes it (the slash the
    handler adds and the one [CreateFolder] would add are the same one).  It
    answers 200 when the put succeeded and 500 with its own message, not the
    backend's, when it failed. *)
Theorem createFolderHandler_puts_marker (path : string) (st : State B) :
  path <> "" ->
  let put := svc_PutObject obj (bucket st) (normalizeFolderPath path) "" in
  createFolderHandler obj path None st
  = (Ok (match put.1 with
         | Some _ =>
             FailureResponse http.StatusInternalServerError
               "failed to create folder"
         | None =>
             SuccessResponse http.StatusOK "Folder created successfully"
         end),
     withBucket put.2 st).
Proof.
  intros Hne put. subst put. unfold createFolderHandler.
  destruct (String.eqb_spec path "") as [|_]; [done|].
  rewrite lastByteIsSlash_HasSuffix.
  assert (Hname :
    (if negb (strings.HasSuffix path "/") then String.append path "/"
     else path) = normalizeFolderPath path).
  { unfold normalizeFolderPath.
    destruct (String.eqb_spec path "") as [|_]; done. }
  rewrite Hname.
  unfold CreateFolder, try, PutObject, bind.
  rewrite normalizeFolderPath_fixed. cbv beta.
  destruct (svc_PutObject obj (bucket st) (normalizeFolderPath path) "")
    as [[e|] b]; reflexivity.
Qed.

(** Without a path the handler answers 400 and makes no backend call. *)
Lemma createFolderHandler_requires_path newClient (st : State B) :
  createFolderHandler obj "" newClient st
  = (Ok (FailureResponse http.StatusBadRequest
           "folder path is required and should end with /"), st).
Proof. done. Qed.

(** X18.  [listAllFoldersHandler] cannot report a backend failure: when the
    listing call fails and delivers nothing, the handler answers 200 with an
    empty list. *)
Theorem listAllFoldersHandler_hides_failure
    (fuel : nat) (path : string) (st : State B) (e : error) :
  let answer := svc_ListObjectsV2 svc (bucket st)
                  (flatInput (normalizeFolderPath path) 1000 None) in
  answer.1.2 = Some e ->
  s3.Contents answer.1.1 = [] ->
  (listAllFoldersHandler svc fuel path None st).1
  = Ok (FoldersResponse http.StatusOK []).
Proof.
  intros answer Herr Hempty. subst answer.
  unfold listAllFoldersHandler, ListAllFolders, bind, ListObjectsV2.
  destruct (svc_ListObjectsV2 _ _ _) as [[resp err] b].
  cbn in Herr, Hempty. subst err. by rewrite Hempty.
Qed.

(** X19.  A 200 from [deleteFolderHandler] means that every listing call
    succeeded, that every delete request made succeeded, and that the last
    call was the delete of the normalized folder path. *)
Theorem deleteFolderHandler_ok
    (fuel : nat) (path : string) (newClient : option error) (st : State B)
    (code : Z) (message : string) :
  (deleteFolderHandler svc fuel path newClient st).1
  = Ok (SuccessResponse code message) ->
  let after := (deleteFolderHandler svc fuel path newClient st).2 in
  code = http.StatusOK
  /\ exists lists keys,
       calls after
       = calls st ++ lists
           ++ map (fun key => CallDeleteObject key None)
                (keys ++ [normalizeFolderPath path])
       /\ Forall (fun call => is_list call = true
                              /\ call_error call = None) lists.
Proof.
  unfold deleteFolderHandler.
  destruct newClient as [e|]; [done|].
  unfold bind, try. rewrite DeleteFolder_phases.
  destruct (collectFolder_errors svc fuel (normalizeFolderPath path) st)
    as (lists & Hc & Hl & Hs).
  destruct (collectFolder svc fuel (normalizeFolderPath path) st)
    as [[objs| e | |] st1]; cbn [fst snd] in *; try done.
  destruct (deleteKeys_run svc
              (map Name objs ++ [normalizeFolderPath path]) st1)
    as (done & failed & Hd & _ & _ & _ & Hres).
  destruct (deleteKeys svc _ st1) as [[[]| e | |] st2];
    cbn [fst snd] in *; try done.
  cbn. intros [= <- <-]. split; [done|].
  destruct failed as [[key e]|]; [by destruct Hres|].
  destruct Hres as [-> _]. cbn in Hd. rewrite app_nil_r in Hd.
  exists lists, (map Name objs). rewrite Hd, Hc, <- app_assoc.
  split; [done|].
  apply Forall_forall. intros call Hin. split.
  - by eapply (proj1 (Forall_forall _ _) Hl).
  - destruct (call_error call) as [e|] eqn:Herr; [|done].
    by specialize (Hs call e Hin Herr).
Qed.
End HandlerFacts.

Lemma createFolderHandler_puts_marker_witness :
  "reports" <> ""
  /\ (createFolderHandler store_put "reports" None docs_start).1
     = Ok (SuccessResponse 200 "Folder created successfully")
  /\ Store.keys (createFolderHandler store_put "reports" None docs_start).2
     = ["docs/"; "docs/a.txt"; "docs/sub/"; "reports/"].
Proof.
  assert (Hne : "reports" <> "").
  { discriminate. }
  split; [exact Hne|].
  rewrite (createFolderHandler_puts_marker store_put "reports" docs_start Hne).
  split; vm_compute; reflexivity.
Defined.

Lemma listAllFoldersHandler_hides_failure_witness :
  (svc_ListObjectsV2 docs_api (bucket docs_outage)
     (flatInput (normalizeFolderPath "docs") 1000 None)).1.2
  = Some "RequestError"
  /\ s3.Contents
       (svc_ListObjectsV2 docs_api (bucket docs_outage)
          (flatInput (normalizeFolderPath "docs") 1000 None)).1.1 = []
  /\ (listAllFoldersHandler docs_api 10 "docs" None docs_outage).1
     = Ok (FoldersResponse 200 []).
Proof.
  assert (Herr :
    (svc_ListObjectsV2 docs_api (bucket docs_outage)
       (flatInput (normalizeFolderPath "docs") 1000 None)).1.2
    = Some "RequestError").
  { reflexivity. }
  assert (Hempty :
    s3.Contents
      (svc_ListObjectsV2 docs_api (bucket docs_outage)
         (flatInput (normalizeFolderPath "docs") 1000 None)).1.1 = []).
  { reflexivity. }
  split; [exact Herr|]. split; [exact Hempty|].
  exact (listAllFoldersHandler_hides_failure docs_api 10 "docs" docs_outage
           "RequestError" Herr Hempty).
Defined.

Lemma deleteFolderHandler_ok_witness :
  (deleteFolderHandler docs_api 10 "docs" None (Store.start small_bucket)).1
  = Ok (SuccessResponse 200 "Folder deleted successfully")
  /\ (200 = http.StatusOK)%Z.
Proof.
  assert (Hrun :
    (deleteFolderHandler docs_api 10 "docs" None
       (Store.start small_bucket)).1
    = Ok (SuccessResponse 200 "Folder deleted successfully")).
  { vm_compute. reflexivity. }
  split; [exact Hrun|].
  exact (proj1 (deleteFolderHandler_ok docs_api 10 "docs" None
                  (Store.start small_bucket) 200
                  "Folder deleted successfully" Hrun)).
Defined.

(** ** [UploadFiles] *)

Section UploadFacts.
Context {B : Type} (obj : PutAPI B).


End UploadFacts.

(** Two files and one key: the first file is stored, then the index is out of
    range. *)
Example UploadFiles_short_of_keys :
  let run := UploadFiles store_put ["one"; "two"] ["k1"] (Store.start []) in
  run.1 = Panic /\ Store.keys run.2 = ["k1"].
Proof. vm_compute. done. Qed.
